(** * aen_client: the session, error-classification and transaction core

    A shallow embedding of [manager.py] (class [AenClient]) and of
    [utils.py] ([build_url], [merge_params], [chunked]), with the
    [requests] session it drives modelled as an explicit transport:
    a cookie jar, default headers, a stored [auth], and a server that
    answers every request from the history of requests it has seen. *)

From Stdlib Require Import ZArith Lia Ascii String Floats.SpecFloat.
From stdpp Require Import base option list gmap strings pretty.

Open Scope string_scope.
Open Scope list_scope.
Open Scope Z_scope.

(** ** Python values

    What [resp.json()] can produce, plus [bytes] for [resp.content]. *)

#[warnings="-register-all"]
Inductive Value :=
| VNone
| VBool (b : bool)
| VInt (n : Z)
| VFloat (f : spec_float)
| VStr (s : string)
| VBytes (b : string)
| VList (l : list Value)
| VDict (d : list (string * Value)).

(** Python truth value: [None], [False], zero, and empty containers
    are false. *)
Definition truthy (v : Value) : bool :=
  match v with
  | VNone => false
  | VBool b => b
  | VInt n => negb (Z.eqb n 0)
  | VFloat (S754_zero _) => false
  | VFloat _ => true
  | VStr s | VBytes s => negb (String.eqb s "")
  | VList l => match l with [] => false | _ => true end
  | VDict d => match d with [] => false | _ => true end
  end.

(** [a or b] *)
Definition py_or (a b : Value) : Value := if truthy a then a else b.

(** [d.get(k)]: the value bound to [k], [None] when there is none. *)
Fixpoint dict_get (d : list (string * Value)) (k : string) : Value :=
  match d with
  | [] => VNone
  | (k', v) :: d' => if String.eqb k' k then v else dict_get d' k
  end.

(** [Optional[str]] arguments and attributes. *)
Definition str_truthy (o : option string) : bool :=
  match o with
  | Some s => negb (String.eqb s "")
  | None => false
  end.

Definition opt_or (a b : option string) : option string :=
  if str_truthy a then a else b.

(** ** Exceptions ([exceptions.py]) *)

(** [AenClientError] and its seven subclasses. *)
Inductive ErrorKind :=
| AenClientError
| AuthenticationError
| PermissionDenied
| NotFoundError
| ValidationError
| ConflictError
| TransactionError
| ServerError.

(** What the transport raises when no response arrives. *)
Inductive TransportFault := ReadTimeout | ConnectionError.

Inductive Exn :=
| ApiError (kind : ErrorKind) (arg : Value)
| JSONDecodeError
| TransportError (f : TransportFault)
| ValueError (msg : string)
| OSError.

Inductive Result (A : Type) :=
| Returned (a : A)
| Raised (e : Exn).
Arguments Returned {A} a.
Arguments Raised {A} e.

(** ** Requests and responses *)

Inductive Body :=
| NoBody
| JsonBody (v : Value)
| FilesBody (field filename content : string) (mime : option string).

(** [urllib.parse.urljoin] is library code and is left uninterpreted:
    a URL is kept as the call that yields it, with the base and the
    reference it is given.  URLs built from equal arguments are equal;
    nothing below rests on two URLs being different. *)
Inductive Url := urljoin (base ref : string).

(** A request as the session receives it from the method: [req_auth]
    the credentials it goes out with, [req_headers] the session's
    persistent headers and [req_jar] the session's cookie jar at that
    moment.  Of the jar the library puts on the wire the cookies whose
    domain and path match the URL; which ones those are is not
    modelled. *)
Record Request := {
  req_method : string;
  req_url : Url;
  req_params : gmap string Value;
  req_auth : option (string * string);
  req_headers : gmap string string;
  req_jar : gmap string string;
  req_body : Body;
  req_timeout : Z
}.

(** A [requests.Response] as the client observes it: [json] is the
    outcome of [resp.json()], [None] when decoding raises;
    [set_cookie] the cookies the server sets with this response. *)
Record Response := {
  status_code : Z;
  content : string;
  text : string;
  json : option Value;
  set_cookie : gmap string string
}.

Inductive Reply :=
| Answer (r : Response)
| Fault (f : TransportFault).

(** The far end.  [respond] sees the requests sent so far, newest
    first, so any deterministic server is covered; [sent] is the log
    of requests this client has issued. *)
Record Transport := {
  respond : list Request → Reply;
  sent : list Request
}.

(** [requests.Session]: persistent headers, cookie jar, stored auth.
    The names of headers are kept as they are written; the mapping of
    [requests] finds a header under any capitalisation of its name,
    which makes a difference only for a session that holds
    [Content-Type] under another spelling. *)
Record Session := {
  headers : gmap string string;
  cookies : gmap string string;
  auth : option (string * string)
}.

Record AenClient := {
  base_url : string;
  username : option string;
  password : option string;
  service_id : option string;
  timeout : Z;
  raise_for_status : bool;
  session : Session
}.

(** ** The state-and-exception monad of a method call *)

Record World := {
  self : AenClient;
  net : Transport
}.

Definition M (A : Type) : Type := World → Result A * World.

Definition ret {A} (a : A) : M A := λ w, (Returned a, w).
Definition raise {A} (e : Exn) : M A := λ w, (Raised e, w).
Definition bind {A B} (m : M A) (k : A → M B) : M B :=
  λ w, match m w with
       | (Returned a, w') => k a w'
       | (Raised e, w') => (Raised e, w')
       end.

#[global] Instance M_ret : MRet M := @ret.
#[global] Instance M_bind : MBind M := λ A B k m, bind m k.

(** [try: m  except AenClientError: h] *)
Definition try_except {A} (m : M A) (h : M A) : M A :=
  λ w, match m w with
       | (Raised (ApiError _ _), w') => h w'
       | r => r
       end.

(** [try: m  finally: f] *)
Definition try_finally {A} (m : M A) (f : M unit) : M A :=
  λ w, match m w with
       | (r, w') =>
           match f w' with
           | (Returned _, w'') => (r, w'')
           | (Raised e, w'') => (Raised e, w'')
           end
       end.

Definition get_self : M AenClient := λ w, (Returned (self w), w).

Definition with_session (c : AenClient) (s : Session) : AenClient :=
  {| base_url := base_url c; username := username c;
     password := password c; service_id := service_id c;
     timeout := timeout c; raise_for_status := raise_for_status c;
     session := s |}.

(** An assignment to, or in-place update of, [self.session]. *)
Definition set_session (f : Session → Session) : M unit :=
  λ w, (Returned tt,
        {| self := with_session (self w) (f (session (self w)));
           net := net w |}).

(** ** [utils.py] *)

(** [s.lstrip("/")] and [s.rstrip("/")] *)
Fixpoint lstrip_slash (s : string) : string :=
  match s with
  | String "/"%char s' => lstrip_slash s'
  | _ => s
  end.

Fixpoint rstrip_slash (s : string) : string :=
  match s with
  | EmptyString => EmptyString
  | String c s' =>
      let r := rstrip_slash s' in
      if Ascii.eqb c "/" && String.eqb r "" then "" else String c r
  end.

Definition build_url (base_url path : string) : Url :=
  urljoin (rstrip_slash base_url +:+ "/") (lstrip_slash path).

(** [merge_params]: later mappings override earlier ones, empty or
    absent mappings and [None] values are skipped. *)
Definition merge_mapping (merged : gmap string Value)
    (m : list (string * Value)) : gmap string Value :=
  foldl (λ acc kv, match kv.2 with
                   | VNone => acc
                   | v => <[kv.1 := v]> acc
                   end) merged m.

Definition merge_params (mappings : list (option (list (string * Value))))
    : gmap string Value :=
  foldl (λ merged m, match m with
                     | None | Some [] => merged
                     | Some kvs => merge_mapping merged kvs
                     end) ∅ mappings.

(** [normalize_oid]: [re.sub(r"^A+", "", value)] drops the run of
    ['A'] the string starts with; [None] and the empty string come
    back as they are. *)
Fixpoint lstrip_A (s : string) : string :=
  match s with
  | String "A"%char s' => lstrip_A s'
  | _ => s
  end.

Definition normalize_oid (value : option string) : option string :=
  if negb (str_truthy value) then value else lstrip_A <$> value.

(** [chunked]: the generator run to exhaustion on a finite iterable.
    [chunked_loop] is the [for] loop with its buffer, followed by the
    final [if buf: yield buf]; the result lists the tuples in the
    order they are yielded. *)
Fixpoint chunked_loop {T} (size : Z) (buf : list T) (iterable : list T)
    : list (list T) :=
  match iterable with
  | [] => match buf with [] => [] | _ => [buf] end
  | item :: rest =>
      let buf' := buf ++ [item] in
      if Z.of_nat (length buf') >=? size
      then buf' :: chunked_loop size [] rest
      else chunked_loop size buf' rest
  end.

Definition chunked {T} (iterable : list T) (size : Z)
    : Result (list (list T)) :=
  if size <=? 0 then Raised (ValueError "size must be > 0")
  else Returned (chunked_loop size [] iterable).

(** ** The transport: [self.session.get/post/put/delete]

    One request is built from the call's arguments and the session's
    stored state (a per-call [auth] takes precedence over the stored
    one), logged, and answered by the server; the cookies the answer
    sets are stored in the session's jar, newer values replacing older
    ones.  Redirects, the expiry of cookies, which cookies of the jar
    are in scope for a URL, and credentials the environment may supply
    ([.netrc]) are outside the model. *)
Definition store_cookies (r : Response) (s : Session) : Session :=
  {| headers := headers s;
     cookies := set_cookie r ∪ cookies s;
     auth := auth s |}.

Definition prepare (method : string) (url : Url)
    (params : gmap string Value)
    (call_auth : option (string * string)) (body : Body) (tmo : Z)
    (s : Session) : Request :=
  {| req_method := method; req_url := url; req_params := params;
     req_auth := match call_auth with
                 | Some a => Some a
                 | None => auth s
                 end;
     req_headers := headers s; req_jar := cookies s;
     req_body := body; req_timeout := tmo |}.

Definition request (method : string) (url : Url)
    (params : gmap string Value)
    (call_auth : option (string * string)) (body : Body) (tmo : Z)
    : M Response :=
  λ w,
    let s := session (self w) in
    let log := prepare method url params call_auth body tmo s :: sent (net w) in
    let net' := {| respond := respond (net w); sent := log |} in
    match respond (net w) log with
    | Fault f => (Raised (TransportError f), {| self := self w; net := net' |})
    | Answer r =>
        (Returned r,
         {| self := with_session (self w) (store_cookies r s); net := net' |})
    end.

(** ** [AenClient.__init__] *)

(** The headers a fresh [requests.Session] starts with. *)
Definition default_headers : gmap string string :=
  {[ "User-Agent" := "python-requests";
     "Accept-Encoding" := "gzip, deflate";
     "Accept" := "*/*";
     "Connection" := "keep-alive" ]}.

Definition new_session : Session :=
  {| headers := default_headers; cookies := ∅; auth := None |}.

Definition init (base_url : string) (username password service_id : option string)
    (timeout : Z) (user_agent : string) (raise_for_status : bool) : AenClient :=
  {| base_url := rstrip_slash base_url;
     username := username; password := password; service_id := service_id;
     timeout := timeout; raise_for_status := raise_for_status;
     session := {| headers := <["User-Agent" := user_agent]>
                                (<["Accept" := "application/json"]>
                                   (headers new_session));
                   cookies := cookies new_session;
                   auth := auth new_session |} |}.

(** ** [AenClient]: internal helpers *)

Definition of_opt_str (o : option string) : Value :=
  match o with Some s => VStr s | None => VNone end.

Definition of_opt_int (o : option Z) : Value :=
  match o with Some n => VInt n | None => VNone end.

Definition of_opt_bool (o : option bool) : Value :=
  match o with Some b => VBool b | None => VNone end.

Definition of_str_list (l : list string) : Value := VList (VStr <$> l).

(** [_extract_error_message]: a failing or non-dict [resp.json()]
    leaves the [try] block and reaches [resp.text or None]; a dict
    returns from inside it. *)
Definition _extract_error_message (resp : Response) : Value :=
  match json resp with
  | Some (VDict data) =>
      py_or (py_or (dict_get data "message") (dict_get data "error"))
            (dict_get data "detail")
  | _ => py_or (VStr (text resp)) VNone
  end.

Section Client.

(** [repr] of the values that are neither [str], [int], [bool] nor
    [None]: floats and containers, whose text CPython alone defines. *)
Variable repr : Value → string.

(** [str(v)], as an f-string field formats it. *)
Definition py_str (v : Value) : string :=
  match v with
  | VStr s => s
  | VNone => "None"
  | VBool true => "True"
  | VBool false => "False"
  | VInt n => pretty n
  | _ => repr v
  end.

(** The exception [_raise_api_error] raises for [resp]. *)
Definition api_error (resp : Response) : Exn :=
  let status := status_code resp in
  let msg := _extract_error_message resp in
  if (status =? 401) || (status =? 403) then
    ApiError PermissionDenied
      (py_or msg (VStr "Permission denied / authentication required"))
  else if status =? 404 then
    ApiError NotFoundError (py_or msg (VStr "Resource not found"))
  else if status =? 409 then
    ApiError ConflictError (py_or msg (VStr "Conflict"))
  else if (status =? 400) || (status =? 405) then
    ApiError ValidationError (py_or msg (VStr "Validation error"))
  else if status >=? 500 then
    ApiError ServerError (py_or msg (VStr "Server error"))
  else
    ApiError AenClientError
      (VStr ("HTTP " +:+ pretty status +:+ ": "
             +:+ py_str (py_or msg (VStr "Unexpected error")))).

Definition _raise_api_error (resp : Response) : M unit :=
  raise (api_error resp).

(** [if resp.status_code != 200: self._raise_api_error(resp)] *)
Definition raise_unless_200 (resp : Response) : M unit :=
  if negb (status_code resp =? 200) then _raise_api_error resp else mret tt.

Definition _json_or_error (resp : Response) : M Value :=
  if (200 <=? status_code resp) && (status_code resp <? 300) then
    if negb (truthy (VBytes (content resp))) then mret VNone
    else match json resp with
         | Some v => mret v
         | None => raise JSONDecodeError
         end
  else _raise_api_error resp;; mret VNone.

Definition _text_or_error (resp : Response) : M Value :=
  if (200 <=? status_code resp) && (status_code resp <? 300) then
    mret (VStr (text resp))
  else _raise_api_error resp;; mret VNone.

(** ** Auth lifecycle *)

Definition login (username' password' service_id' : option string) : M unit :=
  c ← get_self;
  let user := opt_or username' (username c) in
  let pwd := opt_or password' (password c) in
  if negb (str_truthy user && str_truthy pwd) then
    raise (ApiError AuthenticationError
             (VStr "username and password are required for login"))
  else
    let sid := match service_id' with
               | Some s => Some s
               | None => service_id c
               end in
    let params : gmap string Value :=
      if str_truthy sid then {[ "service_id" := of_opt_str sid ]} else ∅ in
    let url := build_url (base_url c) "/user/login" in
    resp ← request "GET" url params
             (Some (default "" user, default "" pwd)) NoBody (timeout c);
    raise_unless_200 resp;;
    set_session (λ s, {| headers := headers s; cookies := cookies s;
                         auth := None |}).

Definition logout : M unit :=
  c ← get_self;
  let url := build_url (base_url c) "/user/logout" in
  resp ← request "GET" url ∅ None NoBody (timeout c);
  raise_unless_200 resp;;
  set_session (λ s, {| headers := headers s; cookies := ∅; auth := auth s |}).

(** ** Objects (single) *)

Definition get_object (object_id : string) (view : option string) : M Value :=
  c ← get_self;
  let url := build_url (base_url c) ("/object/" +:+ object_id) in
  resp ← request "GET" url
           (if str_truthy view then {[ "view" := of_opt_str view ]} else ∅)
           None NoBody (timeout c);
  _json_or_error resp.

Definition create_object (category_id parent_id attribute_name : string)
    (properties : Value) : M Value :=
  c ← get_self;
  let url := build_url (base_url c) "/object" in
  let params : gmap string Value :=
    {[ "category_id" := VStr category_id;
       "parent_id" := VStr parent_id;
       "attribute_name" := VStr attribute_name ]} in
  let body := py_or properties (VList []) in
  resp ← request "POST" url params None (JsonBody body) (timeout c);
  _json_or_error resp.

Definition update_object (object_id : string) (properties : Value) : M Value :=
  c ← get_self;
  let url := build_url (base_url c) "/object" in
  let payload := VDict [("id", VStr object_id); ("properties", properties)] in
  resp ← request "PUT" url ∅ None (JsonBody payload) (timeout c);
  _json_or_error resp.

Definition delete_object (object_id : string) : M unit :=
  c ← get_self;
  let url := build_url (base_url c) ("/object/" +:+ object_id) in
  resp ← request "DELETE" url ∅ None NoBody (timeout c);
  raise_unless_200 resp.

(** ** Objects (bulk) *)

Definition get_objects (object_ids : list string) (view : option string)
    : M Value :=
  c ← get_self;
  let url := build_url (base_url c) "/objects" in
  let params : gmap string Value := {[ "object_id" := of_str_list object_ids ]} in
  let params := if str_truthy view then <["view" := of_opt_str view]> params
                else params in
  resp ← request "GET" url params None NoBody (timeout c);
  _json_or_error resp.

Definition create_objects (objects : Value) : M Value :=
  c ← get_self;
  let url := build_url (base_url c) "/objects" in
  resp ← request "POST" url ∅ None (JsonBody objects) (timeout c);
  _json_or_error resp.

Definition update_objects (objects : Value) : M unit :=
  c ← get_self;
  let url := build_url (base_url c) "/objects" in
  resp ← request "PUT" url ∅ None (JsonBody (VDict [("objects", objects)]))
           (timeout c);
  raise_unless_200 resp.

Definition delete_objects (object_ids : list string) : M unit :=
  c ← get_self;
  let url := build_url (base_url c) "/objects" in
  resp ← request "DELETE" url {[ "object_id" := of_str_list object_ids ]}
           None NoBody (timeout c);
  raise_unless_200 resp.

(** ** Search and queries *)

Definition search (q : string) (view : option string)
    (attribute_name category_id : option (list string)) (limit : option Z)
    : M Value :=
  c ← get_self;
  let url := build_url (base_url c) "/search" in
  let params := merge_params
    [ Some [("q", VStr q)];
      Some [("view", of_opt_str view)];
      Some [("attribute_name", from_option of_str_list VNone attribute_name)];
      Some [("category_id", from_option of_str_list VNone category_id)];
      Some [("limit", of_opt_int limit)] ] in
  resp ← request "GET" url params None NoBody (timeout c);
  _json_or_error resp.

Definition search_by_component (component_id : string)
    (object_id : list string) (view : option string) : M Value :=
  c ← get_self;
  let url := build_url (base_url c) ("/search/" +:+ component_id) in
  let params : gmap string Value :=
    {[ "object_id" := of_str_list object_id; "view" := of_opt_str view ]} in
  resp ← request "GET" url params None NoBody (timeout c);
  _json_or_error resp.

Definition get_object_query_result (object_id query_id : string)
    (view : option string) : M Value :=
  c ← get_self;
  let url := build_url (base_url c)
               ("/object/" +:+ object_id +:+ "/query/" +:+ query_id) in
  resp ← request "GET" url
           (if str_truthy view then {[ "view" := of_opt_str view ]} else ∅)
           None NoBody (timeout c);
  _json_or_error resp.

Definition get_objects_query_result (query_id : string)
    (object_ids : list string) (view : option string) : M Value :=
  c ← get_self;
  let url := build_url (base_url c) ("/objects/query/" +:+ query_id) in
  let params : gmap string Value :=
    {[ "object_id" := of_str_list object_ids; "view" := of_opt_str view ]} in
  resp ← request "GET" url params None NoBody (timeout c);
  _json_or_error resp.

(** ** Files on objects *)

(** [list_files]: the request raises no [AenClientError], so the
    handler only ever sees the one [_json_or_error] raises; after a
    handled error with a status other than 405 the method runs off
    its end and returns [None]. *)
Definition list_files (object_id : string) : M Value :=
  c ← get_self;
  let url := build_url (base_url c) ("/object/" +:+ object_id +:+ "/file/") in
  resp ← request "GET" url ∅ None NoBody (timeout c);
  try_except (_json_or_error resp)
    (if status_code resp =? 405 then mret (VList []) else mret VNone).

Definition get_file (object_id filename : string)
    (attribute_name : option string) (position : option Z) : M Value :=
  c ← get_self;
  let url := build_url (base_url c)
               ("/object/" +:+ object_id +:+ "/file/" +:+ filename) in
  let params := merge_params
    [ Some [("attribute_name", of_opt_str attribute_name)];
      Some [("position", of_opt_int position)] ] in
  resp ← request "GET" url params None NoBody (timeout c);
  _json_or_error resp.

Definition download_file_content (object_id filename : string)
    (attribute_name : option string) (position : option Z) : M Value :=
  c ← get_self;
  let url := build_url (base_url c)
               ("/object/" +:+ object_id +:+ "/file/" +:+ filename
                +:+ "/content") in
  let params := merge_params
    [ Some [("attribute_name", of_opt_str attribute_name)];
      Some [("position", of_opt_int position)] ] in
  resp ← request "GET" url params None NoBody (timeout c);
  raise_unless_200 resp;;
  mret (VBytes (content resp)).

(** A local file as the operating system presents it: its path,
    [os.path.basename] of the path, what [mimetypes.guess_type] makes
    of the name, and the bytes read from it once it is open. *)
Record LocalFile := {
  file_path : string;
  basename : string;
  guessed_type : option string;
  file_bytes : string
}.

(** [open(file_path, "rb")]: [can_open] tells whether the operating
    system opens the file; when it does not, [OSError] is raised. *)
Definition open_file (can_open : bool) : M unit :=
  if can_open then mret tt else raise OSError.

Definition set_headers (f : gmap string string → gmap string string)
    : M unit :=
  set_session (λ s, {| headers := f (headers s); cookies := cookies s;
                       auth := auth s |}).

Definition insert_some (k : string) (o : option Value)
    (m : gmap string Value) : gmap string Value :=
  match o with Some v => <[k := v]> m | None => m end.

(** [upload_file]: its [def] line sits one level too deep in the
    source; it is read as the method of [AenClient] it is written to
    be. *)
Definition upload_file (object_id : string) (f : LocalFile)
    (can_open : bool) (attribute_name filename : option string) : M unit :=
  c ← get_self;
  let url := build_url (base_url c) ("/object/" +:+ object_id +:+ "/file") in
  let params : gmap string Value :=
    insert_some "filename" (VStr <$> filename)
      (insert_some "attribute_name" (VStr <$> attribute_name) ∅) in
  let actual_filename := default "" (opt_or filename (Some (basename f))) in
  let mime_type := default "application/octet-stream" (guessed_type f) in
  let original_content_type := headers (session c) !! "Content-Type" in
  set_headers (delete "Content-Type");;
  try_finally
    (open_file can_open;;
     resp ← request "POST" url params None
              (FilesBody "file" actual_filename (file_bytes f) (Some mime_type))
              (timeout c);
     raise_unless_200 resp)
    (match original_content_type with
     | Some ct => set_headers (insert "Content-Type" ct)
     | None => mret tt
     end).

Definition update_file (object_id : string) (f : LocalFile)
    (can_open : bool) (attribute_name filename : option string)
    (position : option Z) : M unit :=
  c ← get_self;
  let url := build_url (base_url c) ("/object/" +:+ object_id +:+ "/file") in
  let params : gmap string Value :=
    insert_some "position" (VInt <$> position)
      (insert_some "filename" (VStr <$> filename)
         (insert_some "attribute_name" (VStr <$> attribute_name) ∅)) in
  let actual_filename := default "" (opt_or filename (Some (basename f))) in
  let mime_type := default "application/octet-stream" (guessed_type f) in
  let original_content_type := headers (session c) !! "Content-Type" in
  set_headers (delete "Content-Type");;
  try_finally
    (open_file can_open;;
     resp ← request "PUT" url params None
              (FilesBody "file" actual_filename (file_bytes f) (Some mime_type))
              (timeout c);
     raise_unless_200 resp)
    (match original_content_type with
     | Some ct => set_headers (insert "Content-Type" ct)
     | None => mret tt
     end).

Definition delete_file (object_id : string)
    (filename attribute_name : option string) (position : option Z) : M unit :=
  c ← get_self;
  let url := build_url (base_url c) ("/object/" +:+ object_id +:+ "/file") in
  let params := merge_params
    [ Some [("filename", of_opt_str filename)];
      Some [("attribute_name", of_opt_str attribute_name)];
      Some [("position", of_opt_int position)] ] in
  resp ← request "DELETE" url params None NoBody (timeout c);
  raise_unless_200 resp.

(** ** Object versioning and view switching *)

Definition to_version_by_id (object_id version_id : string) : M unit :=
  c ← get_self;
  let url := build_url (base_url c)
               ("/object/" +:+ object_id +:+ "/to-version-by-id/"
                +:+ version_id) in
  resp ← request "POST" url ∅ None NoBody (timeout c);
  raise_unless_200 resp.

Definition to_version_by_date (object_id date_iso : string) : M unit :=
  c ← get_self;
  let url := build_url (base_url c)
               ("/object/" +:+ object_id +:+ "/to-version-by-date/"
                +:+ date_iso) in
  resp ← request "POST" url ∅ None NoBody (timeout c);
  raise_unless_200 resp.

Definition switch_to_draft : M Value :=
  c ← get_self;
  let url := build_url (base_url c) "/session/versions/to-draft" in
  resp ← request "GET" url ∅ None NoBody (timeout c);
  _json_or_error resp.

Definition switch_to_release : M Value :=
  c ← get_self;
  let url := build_url (base_url c) "/session/versions/to-release" in
  resp ← request "GET" url ∅ None NoBody (timeout c);
  _json_or_error resp.

(** ** Locale *)

Definition get_locale : M Value :=
  c ← get_self;
  let url := build_url (base_url c) "/session/locale" in
  resp ← request "GET" url ∅ None NoBody (timeout c);
  _text_or_error resp.

Definition get_locales : M Value :=
  c ← get_self;
  let url := build_url (base_url c) "/session/locales" in
  resp ← request "GET" url ∅ None NoBody (timeout c);
  _json_or_error resp.

Definition set_locale (language_tag : string) : M unit :=
  c ← get_self;
  let url := build_url (base_url c) ("/session/locale/" +:+ language_tag) in
  resp ← request "PUT" url ∅ None NoBody (timeout c);
  raise_unless_200 resp.

(** ** Transactions *)

Definition begin_transaction : M unit :=
  c ← get_self;
  let url := build_url (base_url c) "/session/transaction/begin" in
  resp ← request "PUT" url ∅ None NoBody (timeout c);
  if status_code resp =? 409 then
    raise (ApiError ConflictError
             (VStr "A transaction is already open. Commit or rollback first."))
  else raise_unless_200 resp.

Definition commit_transaction : M unit :=
  c ← get_self;
  let url := build_url (base_url c) "/session/transaction/commit" in
  resp ← request "PUT" url ∅ None NoBody (timeout c);
  if status_code resp =? 409 then
    raise (ApiError TransactionError (VStr "No open transaction to commit."))
  else raise_unless_200 resp.

Definition rollback_transaction : M unit :=
  c ← get_self;
  let url := build_url (base_url c) "/session/transaction/rollback" in
  resp ← request "PUT" url ∅ None NoBody (timeout c);
  if status_code resp =? 409 then
    raise (ApiError TransactionError (VStr "No open transaction to rollback."))
  else raise_unless_200 resp.

(** ** Upload directory *)

Definition upload_to_appdir (f : LocalFile) (can_open : bool)
    (folder : option string) (overwrite : option bool) : M unit :=
  c ← get_self;
  let url := build_url (base_url c) "/upload/file" in
  let params := merge_params
    [ Some [("folder", of_opt_str folder)];
      Some [("overwrite", of_opt_bool overwrite)] ] in
  open_file can_open;;
  resp ← request "POST" url params None
           (FilesBody "file" (file_path f) (file_bytes f) None) (timeout c);
  raise_unless_200 resp.

Definition download_from_appdir (name : string) (folder : option string)
    : M Value :=
  c ← get_self;
  let url := build_url (base_url c) "/upload/file" in
  let params := merge_params
    [ Some [("name", VStr name)]; Some [("folder", of_opt_str folder)] ] in
  resp ← request "GET" url params None NoBody (timeout c);
  if status_code resp =? 404 then
    raise (ApiError NotFoundError
             (VStr ("File '" +:+ name +:+ "' not found in appdir")))
  else
    raise_unless_200 resp;;
    mret (VBytes (content resp)).

(** ** The public interface

    One constructor per public method, with the arguments of the
    call; [call] runs it and gives the Python value it returns
    ([None] for the methods declared [-> None]).  The file of an
    upload is one that the operating system opens; what the three
    upload methods do when it does not is stated on the methods
    themselves. *)
Inductive Call :=
| Login (username password service_id : option string)
| Logout
| GetObject (object_id : string) (view : option string)
| CreateObject (category_id parent_id attribute_name : string)
    (properties : Value)
| UpdateObject (object_id : string) (properties : Value)
| DeleteObject (object_id : string)
| GetObjects (object_ids : list string) (view : option string)
| CreateObjects (objects : Value)
| UpdateObjects (objects : Value)
| DeleteObjects (object_ids : list string)
| Search (q : string) (view : option string)
    (attribute_name category_id : option (list string)) (limit : option Z)
| SearchByComponent (component_id : string) (object_id : list string)
    (view : option string)
| GetObjectQueryResult (object_id query_id : string) (view : option string)
| GetObjectsQueryResult (query_id : string) (object_ids : list string)
    (view : option string)
| ListFiles (object_id : string)
| GetFile (object_id filename : string) (attribute_name : option string)
    (position : option Z)
| DownloadFileContent (object_id filename : string)
    (attribute_name : option string) (position : option Z)
| UploadFile (object_id : string) (f : LocalFile)
    (attribute_name filename : option string)
| UpdateFile (object_id : string) (f : LocalFile)
    (attribute_name filename : option string) (position : option Z)
| DeleteFile (object_id : string) (filename attribute_name : option string)
    (position : option Z)
| ToVersionById (object_id version_id : string)
| ToVersionByDate (object_id date_iso : string)
| SwitchToDraft
| SwitchToRelease
| GetLocale
| GetLocales
| SetLocale (language_tag : string)
| BeginTransaction
| CommitTransaction
| RollbackTransaction
| UploadToAppdir (f : LocalFile) (folder : option string)
    (overwrite : option bool)
| DownloadFromAppdir (name : string) (folder : option string).

Definition returns_none (m : M unit) : M Value := m;; mret VNone.

Definition call (op : Call) : M Value :=
  match op with
  | Login u p sid => returns_none (login u p sid)
  | Logout => returns_none logout
  | GetObject o v => get_object o v
  | CreateObject cid pid an props => create_object cid pid an props
  | UpdateObject o props => update_object o props
  | DeleteObject o => returns_none (delete_object o)
  | GetObjects ids v => get_objects ids v
  | CreateObjects objs => create_objects objs
  | UpdateObjects objs => returns_none (update_objects objs)
  | DeleteObjects ids => returns_none (delete_objects ids)
  | Search q v an cid lim => search q v an cid lim
  | SearchByComponent cid ids v => search_by_component cid ids v
  | GetObjectQueryResult o q v => get_object_query_result o q v
  | GetObjectsQueryResult q ids v => get_objects_query_result q ids v
  | ListFiles o => list_files o
  | GetFile o fn an pos => get_file o fn an pos
  | DownloadFileContent o fn an pos => download_file_content o fn an pos
  | UploadFile o f an fn => returns_none (upload_file o f true an fn)
  | UpdateFile o f an fn pos => returns_none (update_file o f true an fn pos)
  | DeleteFile o fn an pos => returns_none (delete_file o fn an pos)
  | ToVersionById o v => returns_none (to_version_by_id o v)
  | ToVersionByDate o d => returns_none (to_version_by_date o d)
  | SwitchToDraft => switch_to_draft
  | SwitchToRelease => switch_to_release
  | GetLocale => get_locale
  | GetLocales => get_locales
  | SetLocale t => returns_none (set_locale t)
  | BeginTransaction => returns_none begin_transaction
  | CommitTransaction => returns_none commit_transaction
  | RollbackTransaction => returns_none rollback_transaction
  | UploadToAppdir f folder ow =>
      returns_none (upload_to_appdir f true folder ow)
  | DownloadFromAppdir n folder => download_from_appdir n folder
  end.

Definition is_list_files (op : Call) : bool :=
  match op with ListFiles _ => true | _ => false end.

Definition is_login (op : Call) : bool :=
  match op with Login _ _ _ => true | _ => false end.


End Client.

(** The server's reply to the request an operation sends from [w]:
    its answer to the log as the operation leaves it.  (For the one
    call that sends nothing, a [login] without credentials, this is
    the reply to the unchanged log.) *)
Definition reply_to {A} (m : M A) (w : World) : Reply :=
  respond (net w) (sent (net (m w).2)).

(** The transaction states the specification names (its section 3).
    Nothing in [manager.py] declares or stores them. *)
Inductive TransactionState := Idle | Open.

(** The public methods that hand back what [_json_or_error] returns. *)
Definition returns_json (op : Call) : bool :=
  match op with
  | GetObject _ _ | CreateObject _ _ _ _ | UpdateObject _ _
  | GetObjects _ _ | CreateObjects _ | Search _ _ _ _ _
  | SearchByComponent _ _ _ | GetObjectQueryResult _ _ _
  | GetObjectsQueryResult _ _ _ | ListFiles _ | GetFile _ _ _ _
  | SwitchToDraft | SwitchToRelease | GetLocales => true
  | _ => false
  end.

Definition is_transaction (op : Call) : bool :=
  match op with
  | BeginTransaction | CommitTransaction | RollbackTransaction => true
  | _ => false
  end.

Definition is_logout (op : Call) : bool :=
  match op with Logout => true | _ => false end.

(** [client.raise_for_status = flag], the one attribute of the client
    no method reads. *)
Definition set_raise_for_status (flag : bool) (c : AenClient) : AenClient :=
  {| base_url := base_url c; username := username c;
     password := password c; service_id := service_id c;
     timeout := timeout c; raise_for_status := flag;
     session := session c |}.



(** The string of [n] characters [c]. *)
Fixpoint run_of (c : ascii) (n : nat) : string :=
  match n with
  | O => ""
  | S n' => String c (run_of c n')
  end.

(** The pairs of the given mappings, in the order they are written,
    whose value is not [None]. *)
Definition is_bound (kv : string * Value) : bool :=
  match kv.2 with VNone => false | _ => true end.

Definition bindings (mappings : list (option (list (string * Value))))
    : list (string * Value) :=
  filter (λ kv, is_bound kv = true) (concat (default [] <$> mappings)).

(** ** Sample clients and servers

    Concrete inputs on which the statements below are exercised. *)
Module Sample.

(** A stand-in for CPython's [repr]; no sample has a float or a
    container formatted. *)
Definition repr (v : Value) : string := "<object>".

(** [AenClient(base_url, "user", "pass")] with the keyword defaults. *)
Definition client : AenClient :=
  init "http://localhost:23000/api/v2/" (Some "user") (Some "pass") None
       30 "aen-client/0.1" true.

(** [AenClient(base_url)]: no credentials on the instance. *)
Definition anonymous : AenClient :=
  init "http://localhost:23000/api/v2/" None None None
       30 "aen-client/0.1" true.

Definition response (status : Z) (body : string) (decoded : option Value)
    : Response :=
  {| status_code := status; content := body; text := body;
     json := decoded; set_cookie := ∅ |}.

(** A server that answers every request with [r]. *)
Definition answering (c : AenClient) (r : Response) : World :=
  {| self := c; net := {| respond := λ _, Answer r; sent := [] |} |}.

(** A server that answers the requests in turn with the responses
    of [script], and times out once the script is used up. *)
Definition scripted (c : AenClient) (script : list Response) : World :=
  {| self := c;
     net := {| respond := λ log,
                 match script !! pred (length log) with
                 | Some r => Answer r
                 | None => Fault ReadTimeout
                 end;
               sent := [] |} |}.

Definition session_cookie : gmap string string :=
  {[ "JSESSIONID" := "0123456789ABCDEF" ]}.

Definition login_ok : Response :=
  {| status_code := 200; content := ""; text := ""; json := None;
     set_cookie := session_cookie |}.

(** The server reports a conflict. *)
Definition conflict : Response := response 409 "" None.
Definition conflict_world : World := answering client conflict.

(** The server accepts the first logout and rejects the second. *)
Definition unauthorized : Response := response 401 "" None.
Definition logout_twice_world : World :=
  scripted (with_session client
              {| headers := headers (session client);
                 cookies := session_cookie; auth := None |})
           [response 200 "" None; unauthorized].

(** A login the server accepts, setting the session cookie. *)
Definition login_world : World := answering client login_ok.

(** The same login on a client whose session has been given
    credentials of its own ([client.session.auth = ("old", "secret")]),
    which every request would otherwise carry. *)
Definition stale_auth_client : AenClient :=
  with_session client
    {| headers := headers (session client); cookies := ∅;
       auth := Some ("old", "secret") |}.
Definition stale_auth_world : World := answering stale_auth_client login_ok.

(** A client that holds the session cookie, and a server that answers
    its logout with 204 and no body. *)
Definition logged_in : AenClient :=
  with_session client
    {| headers := headers (session client);
       cookies := session_cookie; auth := None |}.
Definition logout_204_world : World :=
  answering logged_in (response 204 "" None).

(** The object does not support file operations. *)
Definition not_allowed : Response := response 405 "" None.
Definition not_allowed_world : World := answering client not_allowed.

(** The server fails. *)
Definition server_error : Response := response 500 "" None.
Definition server_error_world : World := answering client server_error.

(** The server accepts a transaction call and sets no cookie. *)
Definition accepting_world : World := answering client (response 200 "" None).

(** A failure whose body is a JSON object without any of the fields
    [message], [error], [detail], and one whose body is a JSON array. *)
Definition quote : string := String "034" "".
Definition code_body : string := "{" +:+ quote +:+ "code" +:+ quote +:+ ": 42}".
Definition not_found_object : Response :=
  response 404 code_body (Some (VDict [("code", VInt 42)])).
Definition not_found_array : Response :=
  response 404 "[42]" (Some (VList [VInt 42])).

(** Success without a body, and success with the body [null]. *)
Definition no_content : Response := response 204 "" None.
Definition null_ok : Response := response 200 "null" (Some VNone).

(** A server that cannot be reached. *)
Definition unreachable (c : AenClient) : World :=
  {| self := c; net := {| respond := λ _, Fault ConnectionError; sent := [] |} |}.

(** A 200 whose body is a login page, not JSON. *)
Definition html_ok : Response := response 200 "<html>" None.

(** The locale as plain text. *)
Definition locale_ok : Response := response 200 "en-US" None.

(** Failures that carry a message field, and one that is plain text. *)
Definition not_found_message : Response :=
  response 404 "(json)" (Some (VDict [("message", VStr "no such object")])).
Definition teapot_message : Response :=
  response 418 "(json)" (Some (VDict [("message", VStr "short and stout")])).
Definition error_detail : Response :=
  response 400 "(json)"
    (Some (VDict [("message", VStr ""); ("detail", VStr "bad id")])).
Definition gone_text : Response := response 404 "gone" None.

(** A client whose session carries a [Content-Type] header, and a
    file to upload. *)
Definition json_client : AenClient :=
  with_session client
    {| headers := <["Content-Type" := "application/json"]>
                    (headers (session client));
       cookies := session_cookie; auth := None |}.

Definition report : LocalFile :=
  {| file_path := "/tmp/report.pdf"; basename := "report.pdf";
     guessed_type := Some "application/pdf"; file_bytes := "%PDF" |}.

End Sample.

(** * Properties *)

Create HintDb client_ops.
#[global] Hint Unfold call returns_none login logout get_object create_object
  update_object delete_object get_objects create_objects update_objects
  delete_objects search search_by_component get_object_query_result
  get_objects_query_result list_files get_file download_file_content
  upload_file update_file delete_file to_version_by_id
  to_version_by_date switch_to_draft switch_to_release get_locale get_locales
  set_locale begin_transaction commit_transaction rollback_transaction
  upload_to_appdir download_from_appdir
  raise_unless_200 _json_or_error _text_or_error _raise_api_error
  try_except try_finally open_file set_headers set_session get_self request
  reply_to : client_ops.
#[global] Hint Unfold mbind mret M_bind M_ret bind ret raise : client_ops.

(** [_json_or_error] neither sends anything nor touches the client. *)
Lemma json_or_error_world repr (resp : Response) (w : World) :
  (_json_or_error repr resp w).2 = w.
Proof.
  unfold _json_or_error, _raise_api_error, mbind, M_bind, bind, mret, M_ret,
    ret, raise.
  repeat case_match; reflexivity.
Qed.

(** Outside 200-299 [_json_or_error] raises what the classifier
    builds, and that is always an [AenClientError]. *)
Lemma json_or_error_failure repr (resp : Response) (w : World) :
  ¬ (200 ≤ status_code resp < 300) →
  _json_or_error repr resp w = (Raised (api_error repr resp), w).
Proof.
  intros Hfail.
  unfold _json_or_error, _raise_api_error, mbind, M_bind, bind, raise.
  destruct (Z.leb_spec 200 (status_code resp));
    destruct (Z.ltb_spec (status_code resp) 300); simpl;
    first [reflexivity | lia].
Qed.

Lemma api_error_kind repr (resp : Response) :
  ∃ kind arg, api_error repr resp = ApiError kind arg.
Proof. unfold api_error. repeat case_match; eauto. Qed.

(** Project out of the explicit worlds the operations build, and
    nothing else: URLs, parameter maps and messages stay folded. *)
Ltac reduce_world :=
  cbn [fst snd self net sent respond session with_session
       headers cookies auth store_cookies] in *.

Ltac run_op := autounfold with client_ops in *; reduce_world.

(** Case analysis on the server's reply to the request in sight. *)
Ltac exchange :=
  match goal with
  | H : context [match respond ?n ?l with _ => _ end] |- _ =>
      let E := fresh "Ereply" in destruct (respond n l) eqn:E
  | |- context [match respond ?n ?l with _ => _ end] =>
      let E := fresh "Ereply" in destruct (respond n l) eqn:E
  end; reduce_world.

(** Case analysis on the status tests of the method body. *)
Ltac branch :=
  match goal with
  | H : context [if ?b then _ else _] |- _ => destruct b eqn:?
  | |- context [if ?b then _ else _] => destruct b eqn:?
  end; reduce_world.

Ltac status_facts :=
  repeat match goal with
    | H : (_ && _) = true |- _ => apply andb_true_iff in H; destruct H
    | H : (_ && _) = false |- _ => apply andb_false_iff in H
    | H : (_ || _) = true |- _ => apply orb_true_iff in H
    | H : (_ || _) = false |- _ => apply orb_false_iff in H; destruct H
    | H : negb _ = true |- _ => apply negb_true_iff in H
    | H : negb _ = false |- _ => apply negb_false_iff in H
    | H : (_ =? _) = true |- _ => apply Z.eqb_eq in H
    | H : (_ =? _) = false |- _ => apply Z.eqb_neq in H
    | H : (_ <=? _) = true |- _ => apply Z.leb_le in H
    | H : (_ <=? _) = false |- _ => apply Z.leb_gt in H
    | H : (_ <? _) = true |- _ => apply Z.ltb_lt in H
    | H : (_ <? _) = false |- _ => apply Z.ltb_ge in H
    | H : (_ >=? _) = true |- _ => apply Z.geb_le in H
    | H : (_ >=? _) = false |- _ => rewrite Z.geb_leb in H
    end.

(** Name the outcome of [_json_or_error] where a handler inspects it;
    the world it hands on is the one it was given. *)
Ltac split_json_result :=
  match goal with
  | |- context [let (_, _) := _json_or_error ?rp ?r ?W in _] =>
      let Hw := fresh "Hworld" in
      let EJ := fresh "Ejson" in
      pose proof (json_or_error_world rp r W) as Hw;
      destruct (_json_or_error rp r W) as [? ?] eqn:EJ;
      cbn [snd] in Hw; subst
  end.

Ltac destruct_result :=
  match goal with
  | |- context [match ?r with Returned _ => _ | Raised _ => _ end] =>
      destruct r as [?|[]]; repeat branch;
      unfold mret, M_ret, ret in *; reduce_world
  end.

(** The reply the hypotheses name is the reply the method body saw. *)
Ltac same_reply :=
  match goal with
  | E : respond ?n ?l = _, H : respond ?n ?l = Answer _ |- _ =>
      rewrite E in H; first [discriminate H | injection H as ->]
  | E : respond ?n ?l = _, H : respond ?n ?l = Fault _ |- _ =>
      rewrite E in H; first [discriminate H | injection H as ->]
  end.

(** ** [chunked] *)

Section Chunked.
Context {T : Type}.
Implicit Types (buf iterable : list T) (size : Z).

(** Nothing is lost, duplicated or reordered: the buffer followed by
    what is still to come is what the chunks spell out. *)
Lemma chunked_loop_concat size iterable buf :
  concat (chunked_loop size buf iterable) = buf ++ iterable.
Proof.
  revert buf. induction iterable as [|item rest IH]; intros buf; simpl.
  - destruct buf; simpl; by rewrite ?app_nil_r.
  - destruct (_ >=? _); simpl; rewrite IH; by rewrite <- ?app_assoc.
Qed.

(** With a buffer that is not yet full, every chunk is non-empty and
    holds at most [size] items. *)
Lemma chunked_loop_bounds size iterable buf :
  0 < size → Z.of_nat (length buf) < size →
  Forall (λ c, c ≠ [] ∧ Z.of_nat (length c) ≤ size)
         (chunked_loop size buf iterable).
Proof.
  intros Hsize. revert buf.
  induction iterable as [|item rest IH]; intros buf Hbuf; simpl.
  - destruct buf as [|x buf']; constructor; [|constructor].
    split; [done | lia].
  - assert (Hlen : length (buf ++ [item]) = S (length buf))
      by (rewrite length_app; simpl; lia).
    destruct (Z.geb_spec (Z.of_nat (length (buf ++ [item]))) size) as [Hge|Hlt].
    + constructor.
      * split; [by destruct buf | lia].
      * apply IH. simpl. lia.
    + apply IH. lia.
Qed.

(** Every chunk that is followed by another one is full. *)
Lemma chunked_loop_full size iterable buf (i : nat) c :
  0 < size → Z.of_nat (length buf) < size →
  chunked_loop size buf iterable !! i = Some c →
  (S i < length (chunked_loop size buf iterable))%nat →
  Z.of_nat (length c) = size.
Proof.
  intros Hsize. revert buf i.
  induction iterable as [|item rest IH]; intros buf i Hbuf; simpl.
  - destruct buf; simpl; intros _ Hi; lia.
  - assert (Hlen : length (buf ++ [item]) = S (length buf))
      by (rewrite length_app; simpl; lia).
    destruct (Z.geb_spec (Z.of_nat (length (buf ++ [item]))) size) as [Hge|Hlt].
    + destruct i as [|i]; simpl.
      * intros [= <-] _. lia.
      * intros Hc Hi. apply (IH [] i); [simpl; lia | done | lia].
    + apply IH. lia.
Qed.

End Chunked.

(** C9. For every finite iterable and every [size > 0], the tuples
    [chunked] yields concatenate, in order, to the input; each is
    non-empty and no longer than [size]; each one that is not the last
    has exactly [size] items.  For every [size <= 0] the generator
    raises [ValueError] and has yielded nothing. *)
Theorem chunked_partitions_input {T} (iterable : list T) (size : Z) :
  (0 < size →
   ∃ chunks, chunked iterable size = Returned chunks
     ∧ concat chunks = iterable
     ∧ Forall (λ c, c ≠ [] ∧ Z.of_nat (length c) ≤ size) chunks
     ∧ ∀ (i : nat) c, chunks !! i = Some c → (S i < length chunks)%nat →
                      Z.of_nat (length c) = size)
  ∧ (size ≤ 0 →
     chunked iterable size = Raised (ValueError "size must be > 0")).
Proof.
  unfold chunked. split; intros Hsize.
  - destruct (Z.leb_spec size 0) as [?|_]; [lia|].
    eexists; split; [reflexivity|].
    split; [apply chunked_loop_concat|].
    split; [apply chunked_loop_bounds; simpl; lia|].
    intros i c. apply chunked_loop_full; simpl; lia.
  - destruct (Z.leb_spec size 0) as [_|?]; [done | lia].
Qed.

Example chunked_by_two :
  chunked [1; 2; 3; 4; 5] 2 = Returned [[1; 2]; [3; 4]; [5]].
Proof. reflexivity. Qed.

Lemma chunked_partitions_input_witness :
  (∃ chunks, chunked [1; 2; 3; 4; 5] 2 = Returned chunks
     ∧ concat chunks = [1; 2; 3; 4; 5]
     ∧ Forall (λ c, c ≠ [] ∧ Z.of_nat (length c) ≤ 2) chunks
     ∧ ∀ (i : nat) c, chunks !! i = Some c → (S i < length chunks)%nat →
                      Z.of_nat (length c) = 2)
  ∧ chunked [1; 2; 3] 0 = Raised (ValueError "size must be > 0").
Proof.
  split.
  - apply (proj1 (chunked_partitions_input [1; 2; 3; 4; 5] 2)). lia.
  - apply (proj2 (chunked_partitions_input [1; 2; 3] 0)). lia.
Defined.

(** ** Transactions *)

(** C3. A 409 answer to [begin_transaction] raises [ConflictError]
    saying that a transaction is already open and must be committed or
    rolled back first; to [commit_transaction], [TransactionError]
    "No open transaction to commit."; to [rollback_transaction],
    [TransactionError] "No open transaction to rollback.".  Any other
    status that is not the success status 200 is handed to the generic
    classifier, whose exception is the one raised. *)
Theorem transaction_conflict_overrides repr (w : World) (resp : Response) :
  (reply_to (begin_transaction repr) w = Answer resp →
     (status_code resp = 409 →
        (begin_transaction repr w).1
        = Raised (ApiError ConflictError
            (VStr "A transaction is already open. Commit or rollback first.")))
     ∧ (status_code resp ≠ 409 → status_code resp ≠ 200 →
        (begin_transaction repr w).1 = Raised (api_error repr resp)))
  ∧ (reply_to (commit_transaction repr) w = Answer resp →
     (status_code resp = 409 →
        (commit_transaction repr w).1
        = Raised (ApiError TransactionError
                    (VStr "No open transaction to commit.")))
     ∧ (status_code resp ≠ 409 → status_code resp ≠ 200 →
        (commit_transaction repr w).1 = Raised (api_error repr resp)))
  ∧ (reply_to (rollback_transaction repr) w = Answer resp →
     (status_code resp = 409 →
        (rollback_transaction repr w).1
        = Raised (ApiError TransactionError
                    (VStr "No open transaction to rollback.")))
     ∧ (status_code resp ≠ 409 → status_code resp ≠ 200 →
        (rollback_transaction repr w).1 = Raised (api_error repr resp))).
Proof.
  repeat split; intros; run_op; exchange; repeat branch;
    same_reply; status_facts; first [reflexivity | lia].
Qed.

Lemma transaction_conflict_overrides_witness :
  reply_to (begin_transaction Sample.repr) Sample.conflict_world
    = Answer Sample.conflict
  ∧ status_code Sample.conflict = 409
  ∧ (begin_transaction Sample.repr Sample.conflict_world).1
    = Raised (ApiError ConflictError
        (VStr "A transaction is already open. Commit or rollback first."))
  ∧ (commit_transaction Sample.repr Sample.conflict_world).1
    = Raised (ApiError TransactionError (VStr "No open transaction to commit."))
  ∧ (rollback_transaction Sample.repr Sample.conflict_world).1
    = Raised (ApiError TransactionError
                (VStr "No open transaction to rollback.")).
Proof.
  pose proof (transaction_conflict_overrides Sample.repr
                Sample.conflict_world Sample.conflict) as (Hb & Hc & Hr).
  split; [reflexivity|]. split; [reflexivity|].
  split; [apply Hb; reflexivity|].
  split; [apply Hc; reflexivity | apply Hr; reflexivity].
Defined.

(** ** Login and logout *)

Lemma str_truthy_opt_or (a b : option string) :
  str_truthy (opt_or a b) = str_truthy a || str_truthy b.
Proof. unfold opt_or. destruct (str_truthy a) eqn:E; simpl; congruence. Qed.

(** C5. When the arguments of the call and the defaults of the
    instance do not yield both a username and a password, [login]
    raises [AuthenticationError] and the world is untouched: no
    request has been sent. *)
Theorem login_requires_credentials repr (u p sid : option string) (w : World) :
  (str_truthy u || str_truthy (username (self w)))
    && (str_truthy p || str_truthy (password (self w))) = false →
  login repr u p sid w
  = (Raised (ApiError AuthenticationError
               (VStr "username and password are required for login")), w)
  ∧ sent (net (login repr u p sid w).2) = sent (net w).
Proof.
  intros H. rewrite <- !str_truthy_opt_or in H.
  assert (login repr u p sid w
          = (Raised (ApiError AuthenticationError
               (VStr "username and password are required for login")), w))
    as ->; [|done].
  unfold login, mbind, M_bind, bind, get_self, raise. by rewrite H.
Qed.

Lemma login_requires_credentials_witness :
  (str_truthy (Some "user")
     || str_truthy (username (self (Sample.answering Sample.anonymous
                                      Sample.login_ok))))
    && (str_truthy None
        || str_truthy (password (self (Sample.answering Sample.anonymous
                                         Sample.login_ok)))) = false
  ∧ (login Sample.repr (Some "user") None None
       (Sample.answering Sample.anonymous Sample.login_ok)).1
    = Raised (ApiError AuthenticationError
                (VStr "username and password are required for login"))
  ∧ sent (net (login Sample.repr (Some "user") None None
                 (Sample.answering Sample.anonymous Sample.login_ok)).2) = [].
Proof.
  split; [reflexivity|].
  destruct (login_requires_credentials Sample.repr (Some "user") None None
              (Sample.answering Sample.anonymous Sample.login_ok) eq_refl)
    as [Hraise Hsent].
  split; [by rewrite Hraise | exact Hsent].
Defined.

(** What one call of [logout] does, given the server's reply. *)
Lemma logout_answered repr (w : World) (resp : Response) :
  reply_to (logout repr) w = Answer resp →
  logout repr w
  = (if status_code resp =? 200 then Returned ()
     else Raised (api_error repr resp),
     {| self := with_session (self w)
                  (if status_code resp =? 200
                   then {| headers := headers (session (self w));
                           cookies := ∅;
                           auth := auth (session (self w)) |}
                   else store_cookies resp (session (self w)));
        net := {| respond := respond (net w);
                  sent := prepare "GET"
                            (build_url (base_url (self w)) "/user/logout")
                            ∅ None NoBody (timeout (self w))
                            (session (self w))
                          :: sent (net w) |} |}).
Proof.
  intros H. run_op. exchange; repeat branch; same_reply; status_facts;
    try discriminate; destruct (status_code resp =? 200) eqn:E; status_facts;
    first [reflexivity | lia | congruence].
Qed.

(** X26. A [logout] that the server answers with status 200, the one
    status the method takes for success, returns normally and leaves
    the cookie jar empty.  A second [logout] is then prepared from an
    empty jar; when the server rejects it, the classifier's exception
    for that answer is raised to the caller ([PermissionDenied] for a
    401), and the jar holds nothing but what that answer itself has
    set. *)
Theorem logout_clears_cookies repr (w : World) (resp1 : Response) :
  reply_to (logout repr) w = Answer resp1 →
  status_code resp1 = 200 →
  (logout repr w).1 = Returned ()
  ∧ cookies (session (self (logout repr w).2)) = ∅
  ∧ ∀ resp2,
      reply_to (logout repr) (logout repr w).2 = Answer resp2 →
      status_code resp2 ≠ 200 →
      (logout repr (logout repr w).2).1 = Raised (api_error repr resp2)
      ∧ (status_code resp2 = 401 →
         ∃ msg, api_error repr resp2 = ApiError PermissionDenied msg)
      ∧ (∃ req, sent (net (logout repr (logout repr w).2).2)
                = req :: sent (net (logout repr w).2)
                ∧ req_jar req = ∅)
      ∧ cookies (session (self (logout repr (logout repr w).2).2))
        = set_cookie resp2.
Proof.
  intros H1 Hok.
  rewrite (logout_answered repr w resp1 H1).
  apply Z.eqb_eq in Hok as Hok'. rewrite Hok'. cbn [fst snd].
  split; [done|]. split; [done|].
  intros resp2 H2 Hko.
  rewrite (logout_answered repr _ resp2 H2).
  apply Z.eqb_neq in Hko as Hko'. rewrite Hko'. reduce_world.
  split; [done|]. split.
  - intros H401. unfold api_error. rewrite H401. simpl. eauto.
  - split; [eexists; split; [reflexivity | done]|].
    apply (right_id_L ∅ (∪)).
Qed.

Lemma logout_clears_cookies_witness :
  reply_to (logout Sample.repr) Sample.logout_twice_world
    = Answer (Sample.response 200 "" None)
  ∧ cookies (session (self Sample.logout_twice_world)) = Sample.session_cookie
  ∧ (logout Sample.repr Sample.logout_twice_world).1 = Returned ()
  ∧ cookies (session (self (logout Sample.repr Sample.logout_twice_world).2))
    = ∅
  ∧ (logout Sample.repr (logout Sample.repr Sample.logout_twice_world).2).1
    = Raised (api_error Sample.repr Sample.unauthorized).
Proof.
  split; [reflexivity|]. split; [reflexivity|].
  destruct (logout_clears_cookies Sample.repr Sample.logout_twice_world
              (Sample.response 200 "" None) eq_refl eq_refl)
    as (Hret & Hjar & Hsecond).
  split; [exact Hret|]. split; [exact Hjar|].
  apply (Hsecond Sample.unauthorized); [reflexivity | discriminate].
Defined.

(** C8. At the input where the code departs from the claim: a
    [logout] that the server answers with status 204 and no body, a
    success response, does not return.  The method compares the status
    with 200, hands the answer to the classifier and raises the
    unclassified [AenClientError] "HTTP 204: Unexpected error" before
    it reaches [cookies.clear()]: the jar still holds the session
    cookie.  [get_locale], through [_text_or_error], takes the same
    answer for the success it is. *)
Theorem logout_rejects_204 repr :
  200 ≤ status_code Sample.no_content < 300
  ∧ reply_to (logout repr) Sample.logout_204_world = Answer Sample.no_content
  ∧ cookies (session (self Sample.logout_204_world)) = Sample.session_cookie
  ∧ (logout repr Sample.logout_204_world).1
    = Raised (ApiError AenClientError (VStr "HTTP 204: Unexpected error"))
  ∧ cookies (session (self (logout repr Sample.logout_204_world).2))
    = Sample.session_cookie
  ∧ (get_locale repr Sample.logout_204_world).1 = Returned (VStr "").
Proof.
  split; [cbn; lia|]. split; [reflexivity|]. split; [reflexivity|].
  split; [reflexivity|]. split; [|reflexivity].
  vm_compute. reflexivity.
Qed.

(** ** Decoding a successful answer *)

(** A method that returns what [_json_or_error] returns does return
    it: when the helper gives [v] for the answer, so does the method. *)
Lemma json_call_returns repr (resp : Response) (v : Value) :
  (∀ w, _json_or_error repr resp w = (Returned v, w)) →
  ∀ op w, returns_json op = true →
          reply_to (call repr op) w = Answer resp →
          (call repr op w).1 = Returned v.
Proof.
  intros Hjson op w Hop H.
  destruct op; try discriminate Hop; clear Hop;
    unfold call, get_object, create_object, update_object, get_objects,
      create_objects, search, search_by_component, get_object_query_result,
      get_objects_query_result, list_files, get_file, switch_to_draft,
      switch_to_release, get_locales, try_except, reply_to,
      mbind, M_bind, bind, get_self, request in *;
    reduce_world; exchange;
    rewrite ?json_or_error_world in *; reduce_world;
    try (same_reply; rewrite ?Hjson; reflexivity).
  (* [list_files]: the handler is not entered *)
  split_json_result; destruct_result; same_reply;
    rewrite Hjson in *; congruence.
Qed.

(** On a status in 200-299 a body that is not empty and decodes is
    returned decoded. *)
Lemma json_or_error_decoded repr (resp : Response) (v : Value) (w : World) :
  200 ≤ status_code resp < 300 →
  content resp ≠ "" →
  json resp = Some v →
  _json_or_error repr resp w = (Returned v, w).
Proof.
  intros Hstatus Hbody Hjson. unfold _json_or_error.
  destruct (Z.leb_spec 200 (status_code resp)); [|lia].
  destruct (Z.ltb_spec (status_code resp) 300); [|lia].
  simpl. rewrite Hjson.
  destruct (String.eqb_spec (content resp) ""); [done | reflexivity].
Qed.

(** C10. On a status in 200-299, [_json_or_error] gives [None] for an
    empty body, and gives the same [None] for a body that decodes to
    JSON [null]; so does every public method that returns its result,
    [get_object] among them: the caller receives one and the same
    value in both cases. *)
Theorem empty_body_returns_none repr (resp : Response) :
  200 ≤ status_code resp < 300 →
  content resp = "" ∨ json resp = Some VNone →
  (∀ w, _json_or_error repr resp w = (Returned VNone, w))
  ∧ (∀ op w, returns_json op = true →
             reply_to (call repr op) w = Answer resp →
             (call repr op w).1 = Returned VNone)
  ∧ (∀ object_id view w,
       reply_to (get_object repr object_id view) w = Answer resp →
       (get_object repr object_id view w).1 = Returned VNone).
Proof.
  intros Hstatus Hbody.
  assert (Hrange : (200 <=? status_code resp) && (status_code resp <? 300)
                   = true).
  { apply andb_true_iff. split; [apply Z.leb_le | apply Z.ltb_lt]; lia. }
  assert (Hjson : ∀ w, _json_or_error repr resp w = (Returned VNone, w)).
  { intros w. unfold _json_or_error. rewrite Hrange.
    destruct Hbody as [-> | ->]; [reflexivity|].
    by destruct (negb _). }
  pose proof (json_call_returns repr resp VNone Hjson) as Hcall.
  split; [exact Hjson|]. split; [exact Hcall|].
  intros object_id view w. apply (Hcall (GetObject object_id view) w eq_refl).
Qed.

Lemma empty_body_returns_none_witness :
  (200 ≤ status_code Sample.no_content < 300 ∧ content Sample.no_content = "")
  ∧ (200 ≤ status_code Sample.null_ok < 300
     ∧ json Sample.null_ok = Some VNone)
  ∧ (get_object Sample.repr "A1" (Some "detailed")
       (Sample.answering Sample.client Sample.no_content)).1 = Returned VNone
  ∧ (get_object Sample.repr "A1" (Some "detailed")
       (Sample.answering Sample.client Sample.null_ok)).1 = Returned VNone.
Proof.
  assert (H204 : 200 ≤ status_code Sample.no_content < 300) by (cbn; lia).
  assert (H200 : 200 ≤ status_code Sample.null_ok < 300) by (cbn; lia).
  split; [split; [exact H204 | reflexivity]|].
  split; [split; [exact H200 | reflexivity]|].
  split.
  - apply (empty_body_returns_none Sample.repr Sample.no_content H204);
      [left; reflexivity | reflexivity].
  - apply (empty_body_returns_none Sample.repr Sample.null_ok H200);
      [right; reflexivity | reflexivity].
Defined.

(** ** Credentials and the session cookie *)



(** What a [login] that returns has done. *)
Lemma login_returned repr (u p sid : option string) (w w' : World) :
  login repr u p sid w = (Returned (), w') →
  ∃ resp, reply_to (login repr u p sid) w = Answer resp
          ∧ status_code resp = 200
          ∧ session (self w')
            = {| headers := headers (session (self w));
                 cookies := set_cookie resp ∪ cookies (session (self w));
                 auth := None |}.
Proof.
  intros H. run_op. repeat case_match; simplify_eq; reduce_world.
  all: status_facts; eexists; split; [eassumption|]; split; [lia | reflexivity].
Qed.



(** The stored credentials go out with a request made before the
    login, the login itself goes out with the credentials of the call,
    and a request made after it goes out with none. *)
Example stored_auth_before_and_after_login :
  req_auth <$> head (sent (net (call Sample.repr (GetObject "A1" None)
                                  Sample.stale_auth_world).2))
  = Some (Some ("old", "secret"))
  ∧ req_auth <$> head (sent (net (login Sample.repr None None None
                                    Sample.stale_auth_world).2))
    = Some (Some ("user", "pass"))
  ∧ req_auth <$> head (sent (net (call Sample.repr (GetObject "A1" None)
                  (login Sample.repr None None None
                     Sample.stale_auth_world).2).2))
    = Some None.
Proof. repeat split; vm_compute; reflexivity. Qed.

Example session_cookie_is_in_jar_after_login :
  req_jar <$> head (sent (net (call Sample.repr (GetObject "A1" None)
                  (login Sample.repr None None None Sample.login_world).2).2))
  = Some Sample.session_cookie.
Proof. vm_compute. reflexivity. Qed.

(** ** Failures reach the caller *)

(** Against C2 as stated: it is not so that every answer outside
    200-299 ends in an exception.  [list_files] turns a 405 into the
    empty list. *)
Lemma list_files_returns_empty_on_405 :
  reply_to (call Sample.repr (ListFiles "A1")) Sample.not_allowed_world
    = Answer Sample.not_allowed
  ∧ status_code Sample.not_allowed = 405
  ∧ (call Sample.repr (ListFiles "A1") Sample.not_allowed_world).1
    = Returned (VList [])
  ∧ ¬ (∀ repr (op : Call) (w : World) (resp : Response),
         reply_to (call repr op) w = Answer resp →
         ¬ (200 ≤ status_code resp < 300) →
         ∃ e, (call repr op w).1 = Raised e).
Proof.
  split; [reflexivity|]. split; [reflexivity|]. split; [reflexivity|].
  intros Hclaim.
  destruct (Hclaim Sample.repr (ListFiles "A1") Sample.not_allowed_world
              Sample.not_allowed eq_refl) as [e He].
  - cbn. lia.
  - vm_compute in He. discriminate He.
Qed.

(** C2, as amended.  Whatever public method other than [list_files]
    is called, an answer whose status lies outside 200-299 makes it
    raise one [AenClientError] (of the base class or a subclass) to
    its caller, and a transport fault is raised as it is -- unless the
    call is a [login] without credentials, which raises
    [AuthenticationError] without sending anything.  On a status in
    200-299 a method that returns JSON returns the decoded body
    whenever the body decodes.  [list_files] answers a 405 with an
    empty list. *)
Theorem call_surfaces_failure repr (op : Call) (w : World) :
  (∀ resp, is_list_files op = false →
     reply_to (call repr op) w = Answer resp →
     ¬ (200 ≤ status_code resp < 300) →
     ∃ kind arg, (call repr op w).1 = Raised (ApiError kind arg))
  ∧ (∀ f, reply_to (call repr op) w = Fault f →
     (call repr op w).1 = Raised (TransportError f)
     ∨ (is_login op = true
        ∧ sent (net (call repr op w).2) = sent (net w)
        ∧ ∃ arg, (call repr op w).1
                 = Raised (ApiError AuthenticationError arg)))
  ∧ (∀ resp v, returns_json op = true →
     reply_to (call repr op) w = Answer resp →
     200 ≤ status_code resp < 300 →
     content resp ≠ "" → json resp = Some v →
     (call repr op w).1 = Returned v)
  ∧ (∀ resp, is_list_files op = true →
     reply_to (call repr op) w = Answer resp →
     status_code resp = 405 →
     (call repr op w).1 = Returned (VList [])).
Proof.
  split; [|split; [|split]].
  - intros resp Hop H Hfail.
    destruct op; try discriminate Hop; clear Hop; run_op;
      repeat case_match; simplify_eq; reduce_world;
      try same_reply; status_facts;
      first [ by eauto | lia | by (unfold api_error; repeat case_match; eauto) ].
  - intros f H.
    destruct op; run_op; repeat case_match; simplify_eq; reduce_world;
      try same_reply; first [ by left | right; by eauto ].
  - intros resp v Hop H Hstatus Hbody Hjson.
    apply (json_call_returns repr resp v); [|done..].
    intros w0. by apply json_or_error_decoded.
  - intros resp Hop H H405.
    destruct op; try discriminate Hop; clear Hop.
    unfold call, list_files, try_except, reply_to, mbind, M_bind, bind,
      get_self, request in *.
    reduce_world. exchange; [|same_reply].
    destruct (api_error_kind repr resp) as (kind & arg & Hkind).
    split_json_result. destruct_result; same_reply; status_facts;
      rewrite json_or_error_failure, Hkind in Ejson by lia;
      first [reflexivity | lia | congruence].
Qed.

Lemma call_surfaces_failure_witness :
  (is_list_files (DeleteObject "A1") = false
   ∧ reply_to (call Sample.repr (DeleteObject "A1")) Sample.server_error_world
     = Answer Sample.server_error
   ∧ ¬ (200 ≤ status_code Sample.server_error < 300)
   ∧ ∃ kind arg, (call Sample.repr (DeleteObject "A1")
                    Sample.server_error_world).1
                 = Raised (ApiError kind arg))
  ∧ (is_list_files (ListFiles "A1") = true
     ∧ reply_to (call Sample.repr (ListFiles "A1")) Sample.not_allowed_world
       = Answer Sample.not_allowed
     ∧ status_code Sample.not_allowed = 405
     ∧ (call Sample.repr (ListFiles "A1") Sample.not_allowed_world).1
       = Returned (VList [])).
Proof.
  assert (H500 : ¬ (200 ≤ status_code Sample.server_error < 300))
    by (cbn; lia).
  split.
  - split; [reflexivity|]. split; [reflexivity|]. split; [exact H500|].
    exact (proj1 (call_surfaces_failure Sample.repr (DeleteObject "A1")
                    Sample.server_error_world)
             Sample.server_error eq_refl eq_refl H500).
  - split; [reflexivity|]. split; [reflexivity|]. split; [reflexivity|].
    exact (proj2 (proj2 (proj2 (call_surfaces_failure Sample.repr
                                  (ListFiles "A1") Sample.not_allowed_world)))
             Sample.not_allowed eq_refl eq_refl eq_refl).
Defined.

(** ** The transaction calls and the client's state *)

(** Against C4 as stated: no reading of the client object shows
    [Idle] before a successful [begin_transaction] and [Open] after it.
    With an answer that sets no cookie the client after the call is
    the client before it. *)
Lemma no_local_transaction_state :
  (begin_transaction Sample.repr Sample.accepting_world).1 = Returned ()
  ∧ self (begin_transaction Sample.repr Sample.accepting_world).2
    = self Sample.accepting_world
  ∧ ¬ ∃ state : AenClient → TransactionState,
        state Sample.client = Idle
        ∧ ∀ repr (w : World),
            (begin_transaction repr w).1 = Returned () →
            state (self w) = Idle →
            state (self (begin_transaction repr w).2) = Open.
Proof.
  assert (Hsame : self (begin_transaction Sample.repr
                          Sample.accepting_world).2 = Sample.client)
    by (vm_compute; reflexivity).
  split; [reflexivity|]. split; [exact Hsame|].
  intros (state & Hinit & Hbegin).
  specialize (Hbegin Sample.repr Sample.accepting_world eq_refl Hinit).
  rewrite Hsame in Hbegin. congruence.
Qed.

Lemma store_no_cookies (c : AenClient) (resp : Response) :
  set_cookie resp = ∅ →
  with_session c (store_cookies resp (session c)) = c.
Proof.
  intros Hnone. destruct c as [? ? ? ? ? ? [? ? ?]].
  unfold with_session, store_cookies. simpl. rewrite Hnone.
  by rewrite (left_id_L ∅ (∪)).
Qed.

(** C4, as amended.  The client holds no transaction state.  Each of
    [begin_transaction], [commit_transaction], [rollback_transaction]
    sends its request whatever was called before, and leaves of the
    answer nothing in the client but the cookies the transport stores
    for any answer; an answer that sets none leaves the client exactly
    as it was.  On status 200 the call returns; a 409, the server's
    report of a call out of turn, is raised as [ConflictError] by
    begin and as [TransactionError] by commit and rollback. *)
Theorem transaction_calls_keep_no_state repr (op : Call) (w : World)
    (resp : Response) :
  is_transaction op = true →
  reply_to (call repr op) w = Answer resp →
  self (call repr op w).2
  = with_session (self w) (store_cookies resp (session (self w)))
  ∧ (set_cookie resp = ∅ → self (call repr op w).2 = self w)
  ∧ (∃ req, sent (net (call repr op w).2) = req :: sent (net w))
  ∧ (status_code resp = 200 → (call repr op w).1 = Returned VNone)
  ∧ (status_code resp = 409 →
     ∃ arg, (call repr op w).1
            = Raised (ApiError match op with
                               | BeginTransaction => ConflictError
                               | _ => TransactionError
                               end arg)).
Proof.
  intros Hop H.
  assert (Hself : self (call repr op w).2
            = with_session (self w) (store_cookies resp (session (self w)))).
  { destruct op; try discriminate Hop; run_op; exchange; repeat branch;
      same_reply; reflexivity. }
  split; [exact Hself|]. split.
  { intros Hnone. rewrite Hself. by apply store_no_cookies. }
  split.
  { destruct op; try discriminate Hop; run_op; exchange; repeat branch;
      same_reply; eauto. }
  split.
  - intros H200.
    destruct op; try discriminate Hop; run_op; exchange; repeat branch;
      same_reply; status_facts; first [reflexivity | lia].
  - intros H409.
    destruct op; try discriminate Hop; run_op; exchange; repeat branch;
      same_reply; status_facts; first [by eauto | lia].
Qed.

Lemma transaction_calls_keep_no_state_witness :
  is_transaction CommitTransaction = true
  ∧ reply_to (call Sample.repr CommitTransaction) Sample.conflict_world
    = Answer Sample.conflict
  ∧ self (call Sample.repr CommitTransaction Sample.conflict_world).2
    = self Sample.conflict_world
  ∧ ∃ arg, (call Sample.repr CommitTransaction Sample.conflict_world).1
           = Raised (ApiError TransactionError arg).
Proof.
  split; [reflexivity|]. split; [reflexivity|].
  destruct (transaction_calls_keep_no_state Sample.repr CommitTransaction
              Sample.conflict_world Sample.conflict eq_refl eq_refl)
    as (_ & Hsame & _ & _ & Hconflict).
  split; [apply Hsame; reflexivity | apply Hconflict; reflexivity].
Defined.

(** ** Error classification *)

(** X7. The status table of [_raise_api_error], over all integers:
    401 and 403 give [PermissionDenied], 404 [NotFoundError], 409
    [ConflictError], 400 and 405 [ValidationError], 500 and above
    [ServerError], and every other status the base [AenClientError]
    whose message starts with ["HTTP <status>: "]. *)
Lemma api_error_table repr (resp : Response) :
  (status_code resp = 401 ∨ status_code resp = 403 →
     ∃ arg, api_error repr resp = ApiError PermissionDenied arg)
  ∧ (status_code resp = 404 →
     ∃ arg, api_error repr resp = ApiError NotFoundError arg)
  ∧ (status_code resp = 409 →
     ∃ arg, api_error repr resp = ApiError ConflictError arg)
  ∧ (status_code resp = 400 ∨ status_code resp = 405 →
     ∃ arg, api_error repr resp = ApiError ValidationError arg)
  ∧ (500 ≤ status_code resp →
     ∃ arg, api_error repr resp = ApiError ServerError arg)
  ∧ (status_code resp < 500 →
     status_code resp ∉ [400; 401; 403; 404; 405; 409] →
     ∃ detail, api_error repr resp
               = ApiError AenClientError
                   (VStr ("HTTP " +:+ pretty (status_code resp) +:+ ": "
                          +:+ detail))).
Proof.
  unfold api_error. repeat split.
  - intros [-> | ->]; simpl; eauto.
  - intros ->. simpl. eauto.
  - intros ->. simpl. eauto.
  - intros [-> | ->]; simpl; eauto.
  - intros Hserver. repeat case_match; status_facts; first [by eauto | lia].
  - intros Hclient Hother.
    assert (Hne : ∀ code, code ∈ [400; 401; 403; 404; 405; 409] →
                          (status_code resp =? code) = false).
    { intros code Hcode. apply Z.eqb_neq. intros E. apply Hother.
      by rewrite E. }
    rewrite !Hne by set_solver.
    rewrite Z.geb_leb, (proj2 (Z.leb_gt 500 (status_code resp)) Hclient).
    simpl. eauto.
Qed.

(** With a falsy extracted message the exception carries the default
    phrase of its kind. *)
Lemma api_error_default_phrase repr (resp : Response) :
  truthy (_extract_error_message resp) = false →
  api_error repr resp
  = if (status_code resp =? 401) || (status_code resp =? 403) then
      ApiError PermissionDenied
        (VStr "Permission denied / authentication required")
    else if status_code resp =? 404 then
      ApiError NotFoundError (VStr "Resource not found")
    else if status_code resp =? 409 then
      ApiError ConflictError (VStr "Conflict")
    else if (status_code resp =? 400) || (status_code resp =? 405) then
      ApiError ValidationError (VStr "Validation error")
    else if status_code resp >=? 500 then
      ApiError ServerError (VStr "Server error")
    else
      ApiError AenClientError
        (VStr ("HTTP " +:+ pretty (status_code resp)
               +:+ ": Unexpected error")).
Proof. intros Hnone. unfold api_error, py_or. by rewrite Hnone. Qed.

(** C1. At the input where the code departs from the claim:
    [delete_object] answered with status 204 and no body passes the
    answer to the classifier and raises the unclassified
    [AenClientError] "HTTP 204: Unexpected error", whereas
    [get_object], through [_json_or_error], takes the same answer for
    the success it is. *)
Theorem delete_object_rejects_204 repr :
  200 ≤ status_code Sample.no_content < 300
  ∧ (delete_object repr "A1"
       (Sample.answering Sample.client Sample.no_content)).1
    = Raised (api_error repr Sample.no_content)
  ∧ api_error repr Sample.no_content
    = ApiError AenClientError (VStr "HTTP 204: Unexpected error")
  ∧ (get_object repr "A1" (Some "detailed")
       (Sample.answering Sample.client Sample.no_content)).1
    = Returned VNone.
Proof.
  split; [cbn; lia|]. split; [reflexivity|]. split; reflexivity.
Qed.

(** ** Message extraction *)

(** X8. The fields of an object are tried in the order [message],
    [error], [detail], the first truthy one winning; a field that is
    present but falsy is passed over like an absent one. *)
Lemma extract_error_message_of_object (resp : Response)
    (data : list (string * Value)) :
  json resp = Some (VDict data) →
  (truthy (dict_get data "message") = true →
     _extract_error_message resp = dict_get data "message")
  ∧ (truthy (dict_get data "message") = false →
     truthy (dict_get data "error") = true →
     _extract_error_message resp = dict_get data "error")
  ∧ (truthy (dict_get data "message") = false →
     truthy (dict_get data "error") = false →
     _extract_error_message resp = dict_get data "detail").
Proof.
  intros Hjson. unfold _extract_error_message, py_or. rewrite Hjson.
  repeat split; intros; repeat case_match; congruence.
Qed.

(** X9. A body that does not decode, or decodes to something other
    than an object, yields the raw text, and [None] when that is
    empty. *)
Lemma extract_error_message_of_text (resp : Response) :
  (∀ data, json resp ≠ Some (VDict data)) →
  _extract_error_message resp
  = if String.eqb (text resp) "" then VNone else VStr (text resp).
Proof.
  intros Hnot. unfold _extract_error_message, py_or.
  destruct (json resp) as [[]|]; simpl; try (by destruct (String.eqb _ _)).
  by destruct (Hnot d).
Qed.

(** C6. At the input where the code departs from the claim: a 404
    whose body is the JSON object [{"code": 42}] has none of the three
    fields, and the extraction returns [None] from inside the object
    branch instead of the non-empty raw text, so that the exception
    carries the default phrase; the JSON array [[42]] does reach the
    raw text. *)
Theorem extract_error_message_skips_text_of_object repr :
  json Sample.not_found_object = Some (VDict [("code", VInt 42)])
  ∧ text Sample.not_found_object ≠ ""
  ∧ _extract_error_message Sample.not_found_object = VNone
  ∧ api_error repr Sample.not_found_object
    = ApiError NotFoundError (VStr "Resource not found")
  ∧ _extract_error_message Sample.not_found_array = VStr "[42]".
Proof.
  split; [reflexivity|]. split; [discriminate|].
  split; [reflexivity|]. split; reflexivity.
Qed.

(** * Further properties of the code *)

(** ** [merge_params] *)

Lemma merge_mapping_bindings (merged : gmap string Value)
    (m : list (string * Value)) :
  merge_mapping merged m
  = list_to_map (reverse (filter (λ kv, is_bound kv = true) m)) ∪ merged.
Proof.
  unfold merge_mapping. revert merged.
  induction m as [|[k v] m IH]; intros merged; simpl.
  - by rewrite (left_id_L ∅ (∪)).
  - rewrite IH. unfold filter at 2. simpl.
    fold (filter (λ kv : string * Value, is_bound kv = true) m).
    destruct v; simpl;
      first [ reflexivity
            | rewrite reverse_cons, list_to_map_app; simpl;
              rewrite <- (assoc_L (∪)); f_equal;
              rewrite insert_empty, <- insert_union_singleton_l; reflexivity ].
Qed.

Lemma merge_params_from (merged : gmap string Value)
    (mappings : list (option (list (string * Value)))) :
  foldl (λ merged m, match m with
                     | None | Some [] => merged
                     | Some kvs => merge_mapping merged kvs
                     end) merged mappings
  = list_to_map (reverse (bindings mappings)) ∪ merged.
Proof.
  unfold bindings. revert merged.
  induction mappings as [|m ms IH]; intros merged; simpl.
  - by rewrite (left_id_L ∅ (∪)).
  - rewrite IH, filter_app, reverse_app, list_to_map_app, <- (assoc_L (∪)).
    f_equal. destruct m as [[|kv kvs]|];
      [ symmetry; apply (left_id_L ∅ (∪))
      | exact (merge_mapping_bindings merged (kv :: kvs))
      | symmetry; apply (left_id_L ∅ (∪)) ].
Qed.

(** X1. [merge_params] is the map of all pairs whose value is not
    [None], taken over the mappings in the order given, a later pair
    replacing an earlier one with the same key; absent and empty
    mappings contribute nothing, and no key is ever bound to [None]. *)
Theorem merge_params_last_binding_wins
    (mappings : list (option (list (string * Value)))) :
  merge_params mappings = list_to_map (reverse (bindings mappings))
  ∧ (∀ k, merge_params mappings !! k ≠ Some VNone)
  ∧ (∀ k v, is_bound (k, v) = true →
       merge_params (mappings ++ [Some [(k, v)]]) !! k = Some v)
  ∧ (∀ k, merge_params (mappings ++ [Some [(k, VNone)]])
          = merge_params mappings)
  ∧ merge_params (mappings ++ [None]) = merge_params mappings.
Proof.
  assert (H : ∀ ms, merge_params ms = list_to_map (reverse (bindings ms))).
  { intros ms. unfold merge_params. rewrite merge_params_from.
    apply (right_id_L ∅ (∪)). }
  split; [apply H|]. split; [|split; [|split]].
  - rewrite H. intros k Hk.
    apply elem_of_list_to_map_2 in Hk.
    apply elem_of_reverse, list_elem_of_filter in Hk as [Hb _]. discriminate Hb.
  - intros k v Hv. rewrite H. unfold bindings.
    rewrite fmap_app, concat_app, filter_app, reverse_app. simpl.
    unfold filter at 1. simpl. rewrite Hv. simpl.
    apply lookup_insert_eq.
  - intros k. rewrite !H. unfold bindings.
    by rewrite fmap_app, concat_app, filter_app, app_nil_r.
  - rewrite !H. unfold bindings.
    by rewrite fmap_app, concat_app, filter_app, app_nil_r.
Qed.

Lemma merge_params_last_binding_wins_witness :
  is_bound ("view", VStr "all") = true
  ∧ merge_params ([Some [("view", VStr "simple")]; None]
                  ++ [Some [("view", VStr "all")]]) !! "view"
    = Some (VStr "all").
Proof.
  split; [reflexivity|].
  apply (merge_params_last_binding_wins [Some [("view", VStr "simple")]; None]).
  reflexivity.
Defined.

(** ** [normalize_oid] *)

Lemma append_cons (c : ascii) (s t : string) :
  String c s +:+ t = String c (s +:+ t).
Proof. reflexivity. Qed.

Lemma lstrip_A_other (c : ascii) (s : string) :
  c ≠ "A"%char → lstrip_A (String c s) = String c s.
Proof.
  intros Hc. simpl.
  destruct c as [[] [] [] [] [] [] [] []]; try reflexivity. by destruct Hc.
Qed.

Lemma lstrip_A_run (s : string) :
  ∃ n, s = run_of "A" n +:+ lstrip_A s.
Proof.
  induction s as [|c s [n IH]]; [by exists 0%nat|].
  destruct (Ascii.eqb_spec c "A") as [->|Hc].
  - exists (S n). simpl. rewrite append_cons. f_equal. exact IH.
  - exists 0%nat. by rewrite lstrip_A_other.
Qed.

Lemma lstrip_A_head (s r : string) :
  lstrip_A s ≠ String "A" r.
Proof.
  induction s as [|c s IH]; [done|].
  destruct (Ascii.eqb_spec c "A") as [->|Hc]; [apply IH|].
  rewrite lstrip_A_other by done. congruence.
Qed.

Lemma lstrip_A_fixed (s : string) :
  (∀ r, s ≠ String "A" r) → lstrip_A s = s.
Proof.
  destruct s as [|c s]; [done|]. intros H.
  destruct (Ascii.eqb_spec c "A") as [->|Hc]; [by destruct (H s)|].
  by apply lstrip_A_other.
Qed.

(** X2. [normalize_oid] splits an id into the run of ['A'] it starts
    with and the rest, and returns the rest, which does not start with
    ['A']; an id made of ['A'] alone comes back empty. *)
Theorem normalize_oid_strips_leading_run (value : string) :
  (∃ n rest,
     value = run_of "A" n +:+ rest
     ∧ (∀ r, rest ≠ String "A" r)
     ∧ normalize_oid (Some value) = Some rest)
  ∧ ∀ n, normalize_oid (Some (run_of "A" n)) = Some "".
Proof.
  split.
  - destruct (lstrip_A_run value) as [n Hn].
    exists n, (lstrip_A value). split; [exact Hn|].
    split; [intros r; apply lstrip_A_head|].
    unfold normalize_oid. destruct value; reflexivity.
  - intros n. unfold normalize_oid. destruct n as [|n]; [reflexivity|].
    simpl. f_equal. induction n as [|n IH]; [reflexivity | exact IH].
Qed.

Example normalize_oid_docstring :
  normalize_oid (Some "AAAAa1b2c3") = Some "a1b2c3"
  ∧ normalize_oid (Some "27b990ef-") = Some "27b990ef-".
Proof. split; reflexivity. Qed.

(** X3. [normalize_oid] is idempotent; it returns [None], the empty
    string and every id that does not start with ['A'] unchanged. *)
Theorem normalize_oid_idempotent (value : option string) :
  normalize_oid (normalize_oid value) = normalize_oid value
  ∧ normalize_oid None = None
  ∧ normalize_oid (Some "") = Some ""
  ∧ (∀ s, (∀ r, s ≠ String "A" r) → normalize_oid (Some s) = Some s).
Proof.
  assert (Hfix : ∀ s, (∀ r, s ≠ String "A" r) →
                      normalize_oid (Some s) = Some s).
  { intros s Hs. unfold normalize_oid. destruct s as [|c s]; [done|].
    simpl. f_equal. by apply (lstrip_A_fixed (String c s)). }
  split; [|split; [done|split; [done|exact Hfix]]].
  destruct value as [s|]; [|done].
  assert (normalize_oid (Some s) = Some (lstrip_A s)) as ->
    by (unfold normalize_oid; by destruct s).
  apply Hfix. intros r. apply lstrip_A_head.
Qed.

Lemma normalize_oid_idempotent_witness :
  (∀ r, "27b990ef" ≠ String "A" r)
  ∧ normalize_oid (Some "27b990ef") = Some "27b990ef".
Proof.
  assert (H : ∀ r, "27b990ef" ≠ String "A" r) by (intros r; discriminate).
  split; [exact H|].
  exact (proj2 (proj2 (proj2 (normalize_oid_idempotent None))) "27b990ef" H).
Defined.

(** ** [build_url] and the base URL *)

Lemma rstrip_slash_snoc (s : string) :
  rstrip_slash (s +:+ "/") = rstrip_slash s.
Proof.
  induction s as [|c s IH]; [done|].
  rewrite append_cons. simpl. by rewrite IH.
Qed.

Lemma rstrip_slash_idempotent (s : string) :
  rstrip_slash (rstrip_slash s) = rstrip_slash s.
Proof.
  induction s as [|c s IH]; [done|]. simpl.
  destruct (Ascii.eqb c "/" && String.eqb (rstrip_slash s) "") eqn:E; [done|].
  simpl. rewrite IH. by rewrite E.
Qed.

Lemma rstrip_slash_no_trailing (s r : string) :
  rstrip_slash s ≠ r +:+ "/".
Proof.
  revert r. induction s as [|c s IH]; intros r; simpl.
  - by destruct r.
  - destruct (Ascii.eqb c "/" && String.eqb (rstrip_slash s) "") eqn:E.
    + by destruct r.
    + destruct r as [|c' r]; [|rewrite append_cons].
      * intros [= -> Hs]. rewrite Hs in E. discriminate E.
      * intros [= -> Hs]. by apply (IH r).
Qed.

(** X4. [build_url] does not depend on slashes at the end of the base
    or at the start of the path: one more of either, or a base already
    stripped, gives the same URL. *)
Theorem build_url_ignores_boundary_slashes (base_url path : string) :
  build_url (base_url +:+ "/") path = build_url base_url path
  ∧ build_url base_url ("/" +:+ path) = build_url base_url path
  ∧ build_url (rstrip_slash base_url) path = build_url base_url path.
Proof.
  unfold build_url.
  by rewrite rstrip_slash_snoc, rstrip_slash_idempotent.
Qed.

(** X5. The base URL a client is constructed with is stored without
    any trailing slash, so that a client given [base/] is the client
    given [base]. *)
Theorem init_strips_base_url (base : string)
    (username password service_id : option string) (timeout : Z)
    (user_agent : string) (raise_for_status : bool) :
  (∀ r, base_url (init base username password service_id timeout
                         user_agent raise_for_status) ≠ r +:+ "/")
  ∧ init (base +:+ "/") username password service_id timeout user_agent
         raise_for_status
    = init base username password service_id timeout user_agent
           raise_for_status.
Proof.
  split.
  - intros r. apply rstrip_slash_no_trailing.
  - unfold init. by rewrite rstrip_slash_snoc.
Qed.

(** ** [chunked]: how many tuples *)

Lemma chunked_loop_count {T} (size : Z) (iterable buf : list T) :
  0 < size → Z.of_nat (length buf) < size →
  Z.of_nat (length (chunked_loop size buf iterable))
  = (Z.of_nat (length buf) + Z.of_nat (length iterable) + size - 1) / size.
Proof.
  intros Hsize. revert buf.
  induction iterable as [|item rest IH]; intros buf Hbuf; simpl.
  - destruct buf as [|x buf']; simpl length.
    + symmetry. apply Z.div_small. lia.
    + apply Z.div_unique with (r := Z.of_nat (length (x :: buf')) - 1);
        simpl length in *; lia.
  - assert (Hlen : length (buf ++ [item]) = S (length buf))
      by (rewrite length_app; simpl; lia).
    destruct (Z.geb_spec (Z.of_nat (length (buf ++ [item]))) size) as [Hge|Hlt].
    + simpl length. rewrite Nat2Z.inj_succ, (IH []) by (simpl; lia).
      simpl length.
      replace (Z.of_nat (length buf) + Z.of_nat (S (length rest)) + size - 1)
        with ((Z.of_nat 0 + Z.of_nat (length rest) + size - 1) + 1 * size)
        by lia.
      rewrite Z.div_add by lia. lia.
    + rewrite IH by lia. f_equal. lia.
Qed.

(** X6. For [size > 0], [chunked] yields the length of the input
    divided by [size], rounded up, many tuples: none for an empty
    input, and the whole input as the one tuple when it is not empty
    and no longer than [size]. *)
Theorem chunked_count {T} (iterable : list T) (size : Z) :
  0 < size →
  ∃ chunks, chunked iterable size = Returned chunks
    ∧ Z.of_nat (length chunks) = (Z.of_nat (length iterable) + size - 1) / size
    ∧ (iterable = [] → chunks = [])
    ∧ (iterable ≠ [] → Z.of_nat (length iterable) ≤ size →
       chunks = [iterable]).
Proof.
  intros Hsize. unfold chunked.
  destruct (Z.leb_spec size 0) as [?|_]; [lia|].
  eexists. split; [reflexivity|]. split.
  - rewrite chunked_loop_count by (simpl; lia). simpl. f_equal; lia.
  - split; [by intros ->|]. intros Hne Hle.
    pose proof (chunked_loop_concat size iterable []) as Hcat.
    assert (Hcount : Z.of_nat (length (chunked_loop size [] iterable)) = 1).
    { rewrite chunked_loop_count by (simpl; lia). symmetry.
      apply Z.div_unique with (r := Z.of_nat (length iterable) - 1).
      - destruct iterable; [done|]. simpl length in *. lia.
      - simpl length. lia. }
    destruct (chunked_loop size [] iterable) as [|c [|c' cs]];
      simpl in Hcount; try lia.
    simpl in Hcat. rewrite app_nil_r in Hcat. by subst.
Qed.

Lemma chunked_count_witness :
  0 < 3
  ∧ ∃ chunks, chunked [1; 2; 3; 4; 5; 6; 7] 3 = Returned chunks
      ∧ Z.of_nat (length chunks) = 3.
Proof.
  split; [lia|].
  destruct (chunked_count [1; 2; 3; 4; 5; 6; 7] 3) as (chunks & H & Hn & _);
    [lia|].
  exists chunks. split; [exact H | exact Hn].
Defined.

(** ** Classification and messages, end to end *)

Lemma api_error_table_witness :
  status_code Sample.gone_text = 404
  ∧ ∃ arg, api_error Sample.repr Sample.gone_text = ApiError NotFoundError arg.
Proof.
  split; [reflexivity|].
  apply (api_error_table Sample.repr Sample.gone_text). reflexivity.
Defined.

Lemma extract_error_message_of_object_witness :
  json Sample.error_detail
    = Some (VDict [("message", VStr ""); ("detail", VStr "bad id")])
  ∧ _extract_error_message Sample.error_detail = VStr "bad id".
Proof.
  split; [reflexivity|].
  apply (extract_error_message_of_object Sample.error_detail
           [("message", VStr ""); ("detail", VStr "bad id")] eq_refl);
    reflexivity.
Defined.

Lemma extract_error_message_of_text_witness :
  (∀ data, json Sample.gone_text ≠ Some (VDict data))
  ∧ _extract_error_message Sample.gone_text = VStr "gone".
Proof.
  assert (H : ∀ data, json Sample.gone_text ≠ Some (VDict data))
    by (intros data; discriminate).
  split; [exact H|].
  exact (extract_error_message_of_text Sample.gone_text H).
Defined.

(** X10. When the body of a failure is a JSON object whose [message]
    is truthy, that value is the argument of the exception raised for
    every status the table names, and is formatted into
    ["HTTP <status>: <message>"] for every other status. *)
Theorem api_error_carries_message_field repr (resp : Response)
    (data : list (string * Value)) :
  json resp = Some (VDict data) →
  truthy (dict_get data "message") = true →
  ((status_code resp ∈ [400; 401; 403; 404; 405; 409]
    ∨ 500 ≤ status_code resp) →
     ∃ kind, api_error repr resp = ApiError kind (dict_get data "message"))
  ∧ (status_code resp ∉ [400; 401; 403; 404; 405; 409] →
     status_code resp < 500 →
     api_error repr resp
     = ApiError AenClientError
         (VStr ("HTTP " +:+ pretty (status_code resp) +:+ ": "
                +:+ py_str repr (dict_get data "message")))).
Proof.
  intros Hjson Hmsg.
  assert (Hex : _extract_error_message resp = dict_get data "message").
  { unfold _extract_error_message, py_or. rewrite Hjson, Hmsg.
    cbn iota. by rewrite Hmsg. }
  unfold api_error. rewrite Hex. unfold py_or. rewrite Hmsg. split.
  - intros Hcls. repeat case_match; try (eexists; reflexivity).
    exfalso. status_facts. destruct Hcls as [Hin|Hge]; [|lia].
    set_unfold in Hin. lia.
  - intros Hother Hclient.
    assert (Hne : ∀ code, code ∈ [400; 401; 403; 404; 405; 409] →
                          (status_code resp =? code) = false).
    { intros code Hcode. apply Z.eqb_neq. intros E. apply Hother.
      by rewrite E. }
    rewrite !Hne by set_solver.
    rewrite Z.geb_leb, (proj2 (Z.leb_gt 500 (status_code resp)) Hclient).
    reflexivity.
Qed.

Lemma api_error_carries_message_field_witness :
  api_error Sample.repr Sample.teapot_message
  = ApiError AenClientError (VStr "HTTP 418: short and stout")
  ∧ ∃ kind, api_error Sample.repr Sample.not_found_message
            = ApiError kind (VStr "no such object").
Proof.
  split.
  - apply (api_error_carries_message_field Sample.repr Sample.teapot_message
             [("message", VStr "short and stout")] eq_refl eq_refl);
      [ cbn; set_unfold; lia | cbn; lia ].
  - apply (api_error_carries_message_field Sample.repr
             Sample.not_found_message
             [("message", VStr "no such object")] eq_refl eq_refl).
    left. cbn. set_solver.
Defined.

(** ** What the methods make of an answer *)

Lemma json_or_error_result repr (resp : Response) (w w0 : World) :
  (_json_or_error repr resp w).1 = (_json_or_error repr resp w0).1.
Proof.
  unfold _json_or_error, _raise_api_error, mbind, M_bind, bind, mret, M_ret,
    ret, raise.
  repeat case_match; reflexivity.
Qed.

(** A method that returns JSON, [list_files] apart, hands back what
    [_json_or_error] makes of the answer. *)
Lemma json_call_result repr (op : Call) (w : World) (resp : Response) :
  returns_json op = true → is_list_files op = false →
  reply_to (call repr op) w = Answer resp →
  (call repr op w).1 = (_json_or_error repr resp w).1.
Proof.
  intros Hop Hlf H.
  destruct op; try discriminate Hop; try discriminate Hlf; clear Hop Hlf;
    unfold call, get_object, create_object, update_object, get_objects,
      create_objects, search, search_by_component, get_object_query_result,
      get_objects_query_result, get_file, switch_to_draft,
      switch_to_release, get_locales, reply_to,
      mbind, M_bind, bind, get_self, request in *;
    reduce_world; exchange;
    rewrite ?json_or_error_world in *; reduce_world;
    same_reply; apply json_or_error_result.
Qed.

(** X11. A success whose body is not empty and does not decode makes
    every method that returns JSON, [list_files] included, raise the
    decoder's error: an exception that is no [AenClientError]. *)
Theorem undecodable_success_raises_decode_error repr (op : Call) (w : World)
    (resp : Response) :
  returns_json op = true →
  reply_to (call repr op) w = Answer resp →
  200 ≤ status_code resp < 300 →
  content resp ≠ "" →
  json resp = None →
  (call repr op w).1 = Raised JSONDecodeError.
Proof.
  intros Hop H Hstatus Hbody Hjson.
  assert (Hhelper : ∀ w0, _json_or_error repr resp w0
                          = (Raised JSONDecodeError, w0)).
  { intros w0. unfold _json_or_error.
    destruct (Z.leb_spec 200 (status_code resp)); [|lia].
    destruct (Z.ltb_spec (status_code resp) 300); [|lia].
    simpl. rewrite Hjson.
    destruct (String.eqb_spec (content resp) ""); [done | reflexivity]. }
  destruct (is_list_files op) eqn:Hlf.
  - destruct op; try discriminate Hlf.
    unfold call, list_files, try_except, reply_to, mbind, M_bind, bind,
      get_self, request in *.
    reduce_world. exchange; [|same_reply].
    split_json_result. destruct_result; same_reply;
      rewrite Hhelper in *; congruence.
  - rewrite (json_call_result repr op w resp Hop Hlf H). by rewrite Hhelper.
Qed.

Lemma undecodable_success_raises_decode_error_witness :
  returns_json (GetLocales) = true
  ∧ reply_to (call Sample.repr GetLocales)
      (Sample.answering Sample.client Sample.html_ok)
    = Answer Sample.html_ok
  ∧ (call Sample.repr GetLocales
       (Sample.answering Sample.client Sample.html_ok)).1
    = Raised JSONDecodeError.
Proof.
  split; [reflexivity|]. split; [reflexivity|].
  apply (undecodable_success_raises_decode_error Sample.repr GetLocales
           (Sample.answering Sample.client Sample.html_ok) Sample.html_ok);
    [reflexivity | reflexivity | cbn; lia | discriminate | reflexivity].
Defined.

(** X12. [get_locale] returns the text of any answer with a status in
    200-299 as it is, the empty text included, and raises the
    classifier's exception for every other answer. *)
Theorem get_locale_returns_text repr (w : World) (resp : Response) :
  reply_to (get_locale repr) w = Answer resp →
  (200 ≤ status_code resp < 300 →
     (get_locale repr w).1 = Returned (VStr (text resp)))
  ∧ (¬ (200 ≤ status_code resp < 300) →
     (get_locale repr w).1 = Raised (api_error repr resp)).
Proof.
  intros H. split; intros Hstatus; run_op; exchange; repeat branch;
    same_reply; status_facts; first [reflexivity | lia].
Qed.

Lemma get_locale_returns_text_witness :
  reply_to (get_locale Sample.repr)
    (Sample.answering Sample.client Sample.locale_ok)
  = Answer Sample.locale_ok
  ∧ (get_locale Sample.repr
       (Sample.answering Sample.client Sample.locale_ok)).1
    = Returned (VStr "en-US").
Proof.
  split; [reflexivity|].
  apply (get_locale_returns_text Sample.repr
           (Sample.answering Sample.client Sample.locale_ok)
           Sample.locale_ok eq_refl).
  cbn. lia.
Defined.

(** X13. [download_file_content] returns the bytes of a 200 answer and
    raises the classifier's exception for any other status.
    [download_from_appdir] does the same, except that a 404 raises
    [NotFoundError] naming the file, whatever the body says. *)
Theorem downloads_return_content repr (w : World) (resp : Response) :
  (∀ object_id filename attribute_name position,
     reply_to (download_file_content repr object_id filename attribute_name
                 position) w = Answer resp →
     (download_file_content repr object_id filename attribute_name position w).1
     = if status_code resp =? 200 then Returned (VBytes (content resp))
       else Raised (api_error repr resp))
  ∧ (∀ name folder,
       reply_to (download_from_appdir repr name folder) w = Answer resp →
       (download_from_appdir repr name folder w).1
       = if status_code resp =? 404 then
           Raised (ApiError NotFoundError
                     (VStr ("File '" +:+ name +:+ "' not found in appdir")))
         else if status_code resp =? 200 then Returned (VBytes (content resp))
         else Raised (api_error repr resp)).
Proof.
  split; intros; run_op; exchange; repeat branch; same_reply;
    status_facts; repeat case_match; status_facts;
    first [reflexivity | lia | congruence].
Qed.

Lemma downloads_return_content_witness :
  reply_to (download_from_appdir Sample.repr "logo.png" None)
    (Sample.answering Sample.client Sample.not_found_message)
  = Answer Sample.not_found_message
  ∧ (download_from_appdir Sample.repr "logo.png" None
       (Sample.answering Sample.client Sample.not_found_message)).1
    = Raised (ApiError NotFoundError
                (VStr "File 'logo.png' not found in appdir")).
Proof.
  split; [reflexivity|].
  exact (proj2 (downloads_return_content Sample.repr
                  (Sample.answering Sample.client Sample.not_found_message)
                  Sample.not_found_message) "logo.png" None eq_refl).
Defined.

(** X14. [list_files] never raises an [AenClientError]: a failure
    reported with status 405 comes back as the empty list, and a
    failure reported with any other status outside 200-299 comes back
    as [None]. *)
Theorem list_files_never_raises_api_error repr (object_id : string)
    (w : World) (resp : Response) :
  reply_to (list_files repr object_id) w = Answer resp →
  (∀ kind arg, (list_files repr object_id w).1 ≠ Raised (ApiError kind arg))
  ∧ (¬ (200 ≤ status_code resp < 300) →
     (list_files repr object_id w).1
     = Returned (if status_code resp =? 405 then VList [] else VNone)).
Proof.
  intros H.
  unfold list_files, try_except, reply_to, mbind, M_bind, bind,
    get_self, request in *.
  reduce_world. exchange; [|same_reply].
  destruct (api_error_kind repr resp) as (kind & arg & Hkind).
  split.
  - intros kind' arg'.
    split_json_result. destruct_result; same_reply; congruence.
  - intros Hfail.
    split_json_result. destruct_result; same_reply; status_facts;
      rewrite json_or_error_failure, Hkind in Ejson by lia;
      repeat case_match; status_facts;
      first [reflexivity | lia | congruence].
Qed.

Lemma list_files_never_raises_api_error_witness :
  reply_to (list_files Sample.repr "A1") Sample.server_error_world
  = Answer Sample.server_error
  ∧ ¬ (200 ≤ status_code Sample.server_error < 300)
  ∧ (list_files Sample.repr "A1" Sample.server_error_world).1
    = Returned VNone.
Proof.
  assert (H500 : ¬ (200 ≤ status_code Sample.server_error < 300))
    by (cbn; lia).
  split; [reflexivity|]. split; [exact H500|].
  exact (proj2 (list_files_never_raises_api_error Sample.repr "A1"
                  Sample.server_error_world Sample.server_error eq_refl)
           H500).
Defined.

(** ** What the methods do to the session *)

Ltac reduce_config :=
  cbn [base_url username password service_id timeout raise_for_status
       session set_raise_for_status] in *.

Lemma with_session_same (c : AenClient) :
  with_session c (session c) = c.
Proof. by destruct c. Qed.

Lemma session_eta (s : Session) :
  {| headers := headers s; cookies := cookies s; auth := auth s |} = s.
Proof. by destruct s. Qed.

(** The [finally] block of the two upload methods puts back what the
    method took out. *)
Lemma content_type_restored (h : gmap string string) :
  match h !! "Content-Type" with
  | Some ct => <["Content-Type" := ct]> (delete "Content-Type" h)
  | None => delete "Content-Type" h
  end = h.
Proof.
  destruct (h !! "Content-Type") eqn:E;
    [by apply insert_delete_id | by apply delete_id].
Qed.

(** X15. No call changes the headers of the session, however it ends:
    [upload_file] and [update_file], which take [Content-Type] out for
    their request, have put it back when they return or raise. *)
Theorem calls_leave_headers repr (op : Call) (w : World) :
  headers (session (self (call repr op w).2)) = headers (session (self w)).
Proof.
  pose proof (content_type_restored (headers (session (self w)))) as Hrestore.
  destruct op; run_op; repeat (first [exchange | branch]);
    repeat case_match; simplify_eq; reduce_world;
    first [reflexivity | congruence].
Qed.

Lemma world_eta (w : World) : {| self := self w; net := net w |} = w.
Proof. by destruct w. Qed.

Lemma with_session_twice (c : AenClient) (s1 s2 : Session) :
  with_session (with_session c s1) s2 = with_session c s2.
Proof. reflexivity. Qed.



Example update_file_request :
  (λ req, (req_method req, req_headers req !! "Content-Type",
           req_headers req !! "Accept", req_body req))
    <$> head (sent (net (update_file Sample.repr "A1" Sample.report true
                           None None None
                           (Sample.answering Sample.json_client
                              (Sample.response 200 "" None))).2))
  = Some ("PUT", None, Some "application/json",
          FilesBody "file" "report.pdf" "%PDF" (Some "application/pdf")).
Proof. vm_compute. reflexivity. Qed.

(** X17. A call that ends in a transport fault leaves the client
    object exactly as it was. *)
Theorem fault_leaves_client repr (op : Call) (w : World) (f : TransportFault) :
  reply_to (call repr op) w = Fault f →
  self (call repr op w).2 = self w.
Proof.
  intros H.
  pose proof (content_type_restored (headers (session (self w)))) as Hrestore.
  pose proof (with_session_same (self w)) as Hsame.
  destruct op; run_op; repeat (first [exchange | branch]);
    repeat case_match; simplify_eq; reduce_world;
    try same_reply; try reflexivity;
    rewrite ?Hrestore; rewrite ?session_eta; try done.
Qed.

Lemma fault_leaves_client_witness :
  reply_to (call Sample.repr (UploadFile "A1" Sample.report None None))
    (Sample.unreachable Sample.json_client)
  = Fault ConnectionError
  ∧ self (call Sample.repr (UploadFile "A1" Sample.report None None)
            (Sample.unreachable Sample.json_client)).2
    = Sample.json_client.
Proof.
  split; [reflexivity|].
  exact (fault_leaves_client Sample.repr
           (UploadFile "A1" Sample.report None None)
           (Sample.unreachable Sample.json_client) ConnectionError eq_refl).
Defined.

(** X18. An answered call of any method but [login] and [logout]
    changes nothing in the client except that the cookies of the
    answer are stored in the jar. *)
Theorem answered_call_only_stores_cookies repr (op : Call) (w : World)
    (resp : Response) :
  is_login op = false → is_logout op = false →
  reply_to (call repr op) w = Answer resp →
  self (call repr op w).2
  = with_session (self w) (store_cookies resp (session (self w))).
Proof.
  intros Hlogin Hlogout H.
  pose proof (content_type_restored (headers (session (self w)))) as Hrestore.
  destruct op; try discriminate Hlogin; try discriminate Hlogout;
    clear Hlogin Hlogout; run_op; repeat (first [exchange | branch]);
    repeat case_match; simplify_eq; reduce_world;
    try same_reply; try reflexivity;
    unfold store_cookies; cbn [headers cookies auth]; rewrite ?Hrestore;
    try done.
Qed.

Lemma answered_call_only_stores_cookies_witness :
  is_login (DeleteObject "A1") = false
  ∧ is_logout (DeleteObject "A1") = false
  ∧ reply_to (call Sample.repr (DeleteObject "A1")) Sample.login_world
    = Answer Sample.login_ok
  ∧ cookies (session (self (call Sample.repr (DeleteObject "A1")
                              Sample.login_world).2))
    = set_cookie Sample.login_ok ∪ cookies (session (self Sample.login_world)).
Proof.
  split; [reflexivity|]. split; [reflexivity|]. split; [reflexivity|].
  by rewrite (answered_call_only_stores_cookies Sample.repr (DeleteObject "A1")
                Sample.login_world Sample.login_ok eq_refl eq_refl eq_refl).
Defined.

(** X19. A call sends at most one request.  It sends exactly one,
    with the client's [timeout], unless it fails before it reaches the
    network: a [login] without credentials raises
    [AuthenticationError], and [upload_file], [update_file] and
    [upload_to_appdir] on a file that does not open raise [OSError];
    these send nothing and leave the client as it was. *)
Theorem call_sends_at_most_one_request repr :
  (∀ (op : Call) (w : World),
     (∃ req, sent (net (call repr op w).2) = req :: sent (net w)
             ∧ req_timeout req = timeout (self w))
     ∨ (is_login op = true
        ∧ (call repr op w).2 = w
        ∧ ∃ arg, (call repr op w).1
                 = Raised (ApiError AuthenticationError arg)))
  ∧ (∀ object_id f attribute_name filename w,
       upload_file repr object_id f false attribute_name filename w
       = (Raised OSError, w))
  ∧ (∀ object_id f attribute_name filename position w,
       update_file repr object_id f false attribute_name filename position w
       = (Raised OSError, w))
  ∧ (∀ f folder overwrite w,
       upload_to_appdir repr f false folder overwrite w = (Raised OSError, w)).
Proof.
  split; [|split; [|split]].
  - intros op w.
    destruct op; run_op; repeat (first [exchange | branch]);
      repeat case_match; simplify_eq; reduce_world;
      first [ left; eexists; split; [reflexivity|]; reflexivity
            | right; split; [reflexivity|]; split; [reflexivity|]; eauto ].
  - intros object_id f attribute_name filename w.
    pose proof (content_type_restored (headers (session (self w)))) as Hrestore.
    run_op; repeat case_match; simplify_eq; reduce_world;
      rewrite ?with_session_twice, ?Hrestore, ?session_eta,
        ?with_session_same, ?world_eta; reflexivity.
  - intros object_id f attribute_name filename position w.
    pose proof (content_type_restored (headers (session (self w)))) as Hrestore.
    run_op; repeat case_match; simplify_eq; reduce_world;
      rewrite ?with_session_twice, ?Hrestore, ?session_eta,
        ?with_session_same, ?world_eta; reflexivity.
  - intros f folder overwrite w. reflexivity.
Qed.

(** X20. No call changes the base URL, the stored credentials, the
    service id, the timeout or the [raise_for_status] flag. *)
Theorem call_keeps_configuration repr (op : Call) (w : World) :
  base_url (self (call repr op w).2) = base_url (self w)
  ∧ username (self (call repr op w).2) = username (self w)
  ∧ password (self (call repr op w).2) = password (self w)
  ∧ service_id (self (call repr op w).2) = service_id (self w)
  ∧ timeout (self (call repr op w).2) = timeout (self w)
  ∧ raise_for_status (self (call repr op w).2) = raise_for_status (self w).
Proof.
  destruct op; run_op; repeat (first [exchange | branch]);
    repeat case_match; simplify_eq; reduce_world;
    repeat split; reflexivity.
Qed.

(** X21. The [raise_for_status] flag has no effect: with it set either
    way a call returns or raises the same, sends the same request and
    leaves the same session. *)
Theorem raise_for_status_is_ignored repr (op : Call) (w : World)
    (flag : bool) :
  (call repr op {| self := set_raise_for_status flag (self w);
                   net := net w |}).1
  = (call repr op w).1
  ∧ net (call repr op {| self := set_raise_for_status flag (self w);
                         net := net w |}).2
    = net (call repr op w).2
  ∧ session (self (call repr op {| self := set_raise_for_status flag (self w);
                                   net := net w |}).2)
    = session (self (call repr op w).2).
Proof.
  destruct op; run_op; unfold set_raise_for_status in *; reduce_config;
    repeat (first [exchange | branch]); repeat case_match; simplify_eq;
    reduce_world; repeat split; congruence.
Qed.

(** ** Login and logout, beyond the successful case *)

(** X22. A [login] whose credentials resolve sends one GET to
    [/user/login] with exactly the resolved pair as its auth, whatever
    auth the session stores.  The service id goes along as the one
    parameter when it is not empty; an empty one given with the call
    suppresses the default of the instance. *)
Theorem login_request repr (u p sid : option string) (w : World)
    (user pwd : string) :
  opt_or u (username (self w)) = Some user → user ≠ "" →
  opt_or p (password (self w)) = Some pwd → pwd ≠ "" →
  ∃ req, sent (net (login repr u p sid w).2) = req :: sent (net w)
    ∧ req_method req = "GET"
    ∧ req_url req = build_url (base_url (self w)) "/user/login"
    ∧ req_auth req = Some (user, pwd)
    ∧ (sid = Some "" → req_params req = ∅)
    ∧ (∀ s, sid = Some s → s ≠ "" →
            req_params req = {[ "service_id" := VStr s ]})
    ∧ (sid = None →
       req_params req
       = match service_id (self w) with
         | Some s => if String.eqb s "" then ∅
                     else {[ "service_id" := VStr s ]}
         | None => ∅
         end).
Proof.
  intros Hu Hune Hp Hpne.
  assert (Hok : negb (str_truthy (opt_or u (username (self w)))
                      && str_truthy (opt_or p (password (self w)))) = false).
  { rewrite Hu, Hp. simpl.
    destruct (String.eqb_spec user ""); [done|].
    destruct (String.eqb_spec pwd ""); done. }
  exists (prepare "GET" (build_url (base_url (self w)) "/user/login")
            (if str_truthy match sid with
                           | Some s => Some s
                           | None => service_id (self w)
                           end
             then {[ "service_id" := of_opt_str match sid with
                                                | Some s => Some s
                                                | None => service_id (self w)
                                                end ]}
             else ∅)
            (Some (user, pwd)) NoBody (timeout (self w)) (session (self w))).
  split.
  { unfold login, mbind, M_bind, bind, get_self, request. reduce_world.
    rewrite Hok, Hu, Hp. cbn [default].
    match goal with
    | |- context [respond ?n ?l] => destruct (respond n l)
    end; reduce_world; [|reflexivity].
    unfold raise_unless_200, _raise_api_error, set_session, mret, M_ret, ret,
      raise.
    destruct (negb (status_code r =? 200)); reflexivity. }
  cbn [prepare req_method req_url req_auth req_params].
  split; [reflexivity|]. split; [reflexivity|]. split; [reflexivity|].
  split; [by intros ->|]. split.
  - intros s -> Hs. simpl. by destruct (String.eqb_spec s "").
  - intros ->. destruct (service_id (self w)) as [s|]; simpl;
      [by destruct (String.eqb s "") | reflexivity].
Qed.

Lemma login_request_witness :
  opt_or (Some "admin") (username (self Sample.login_world)) = Some "admin"
  ∧ opt_or None (password (self Sample.login_world)) = Some "pass"
  ∧ ∃ req, sent (net (login Sample.repr (Some "admin") None (Some "")
                        Sample.login_world).2)
           = req :: sent (net Sample.login_world)
           ∧ req_auth req = Some ("admin", "pass")
           ∧ req_params req = ∅.
Proof.
  split; [reflexivity|]. split; [reflexivity|].
  destruct (login_request Sample.repr (Some "admin") None (Some "")
              Sample.login_world "admin" "pass")
    as (req & Hsent & _ & _ & Hauth & Hempty & _);
    [reflexivity | discriminate | reflexivity | discriminate |].
  exists req. split; [exact Hsent|]. split; [exact Hauth|].
  by apply Hempty.
Defined.

(** X23. A [login] or a [logout] that the server answers with a status
    other than 200 raises the classifier's exception and changes
    nothing in the client but the cookies the answer sets: the failed
    [login] does not reset the stored auth, the failed [logout] does
    not empty the jar. *)
Theorem failed_login_and_logout_keep_session repr (w : World)
    (resp : Response) :
  status_code resp ≠ 200 →
  (∀ u p sid,
     str_truthy (opt_or u (username (self w)))
       && str_truthy (opt_or p (password (self w))) = true →
     reply_to (login repr u p sid) w = Answer resp →
     (login repr u p sid w).1 = Raised (api_error repr resp)
     ∧ self (login repr u p sid w).2
       = with_session (self w) (store_cookies resp (session (self w))))
  ∧ (reply_to (logout repr) w = Answer resp →
     (logout repr w).1 = Raised (api_error repr resp)
     ∧ self (logout repr w).2
       = with_session (self w) (store_cookies resp (session (self w)))).
Proof.
  intros Hko. split.
  - intros u p sid Hcreds H. run_op. rewrite Hcreds in *. cbn [negb] in *.
    exchange; [|same_reply]. repeat branch; same_reply; status_facts;
      first [by split | lia].
  - intros H. run_op. exchange; [|same_reply].
    repeat branch; same_reply; status_facts; first [by split | lia].
Qed.

Lemma failed_login_and_logout_keep_session_witness :
  status_code Sample.unauthorized ≠ 200
  ∧ reply_to (logout Sample.repr)
      (Sample.answering Sample.json_client Sample.unauthorized)
    = Answer Sample.unauthorized
  ∧ (logout Sample.repr
       (Sample.answering Sample.json_client Sample.unauthorized)).1
    = Raised (api_error Sample.repr Sample.unauthorized)
  ∧ cookies (session (self (logout Sample.repr
               (Sample.answering Sample.json_client Sample.unauthorized)).2))
    = Sample.session_cookie.
Proof.
  assert (Hko : status_code Sample.unauthorized ≠ 200) by discriminate.
  split; [exact Hko|]. split; [reflexivity|].
  destruct (proj2 (failed_login_and_logout_keep_session Sample.repr
                     (Sample.answering Sample.json_client Sample.unauthorized)
                     Sample.unauthorized Hko) eq_refl) as [Hraise Hself].
  split; [exact Hraise|]. rewrite Hself. vm_compute. reflexivity.
Defined.

(** X24. A [login] that returns followed by a [logout] that returns
    leaves a session with the headers it had, no cookie and no stored
    auth. *)
Theorem login_then_logout repr (u p sid : option string) (w w1 w2 : World) :
  login repr u p sid w = (Returned (), w1) →
  logout repr w1 = (Returned (), w2) →
  session (self w2)
  = {| headers := headers (session (self w)); cookies := ∅; auth := None |}.
Proof.
  intros Hin Hout.
  destruct (login_returned repr u p sid w w1 Hin) as (resp & _ & _ & Hs1).
  unfold logout, mbind, M_bind, bind, get_self, request in Hout.
  reduce_world.
  repeat (first [exchange | branch]); simplify_eq.
  unfold raise_unless_200, _raise_api_error, set_session, mret, M_ret, ret,
    raise in *.
  repeat case_match; simplify_eq; reduce_world.
  by rewrite Hs1.
Qed.

Lemma login_then_logout_witness :
  login Sample.repr None None None Sample.login_world
  = (Returned (), (login Sample.repr None None None Sample.login_world).2)
  ∧ session (self (logout Sample.repr
                     (login Sample.repr None None None
                        Sample.login_world).2).2)
    = {| headers := headers (session Sample.client); cookies := ∅;
         auth := None |}.
Proof.
  assert (Hin : login Sample.repr None None None Sample.login_world
            = (Returned (),
               (login Sample.repr None None None Sample.login_world).2))
    by (vm_compute; reflexivity).
  split; [exact Hin|].
  apply (login_then_logout Sample.repr None None None Sample.login_world
           _ _ Hin).
  vm_compute. reflexivity.
Defined.

(** ** [search] and its parameters *)

(** X25. [search] sends [q] always and each optional argument exactly
    when it is given; an empty [view] is sent as it is. *)
Theorem search_parameters repr (q : string) (view : option string)
    (attribute_name category_id : option (list string)) (limit : option Z)
    (w : World) :
  ∃ req, sent (net (search repr q view attribute_name category_id limit w).2)
         = req :: sent (net w)
    ∧ req_method req = "GET"
    ∧ req_params req !! "q" = Some (VStr q)
    ∧ req_params req !! "view" = VStr <$> view
    ∧ req_params req !! "attribute_name" = of_str_list <$> attribute_name
    ∧ req_params req !! "category_id" = of_str_list <$> category_id
    ∧ req_params req !! "limit" = VInt <$> limit
    ∧ ∀ k, k ∉ ["q"; "view"; "attribute_name"; "category_id"; "limit"] →
           req_params req !! k = None.
Proof.
  eexists. split.
  { unfold search, mbind, M_bind, bind, get_self, request. reduce_world.
    match goal with
    | |- context [respond ?n ?l] => destruct (respond n l)
    end; reduce_world;
      [rewrite json_or_error_world; reduce_world|]; reflexivity. }
  cbn [prepare req_method req_params]. split; [reflexivity|].
  unfold merge_params, merge_mapping.
  destruct view, attribute_name, category_id, limit; cbn [foldl fst snd
    of_opt_str of_opt_int from_option of_str_list fmap option_fmap option_map];
    (repeat split;
     [ by simplify_map_eq.. 
     | intros k Hk; set_unfold in Hk;
       rewrite ?lookup_insert_ne by naive_solver; apply lookup_empty ]).
Qed.
